(** * Triumvirate governance pipeline

    A shallow embedding of [src/core/integrated_specs/governance.py]:
    the Four Laws check, the three council votes, the consensus logic of
    [Triumvirate.evaluate_action], the decision log and the two queries
    [get_statistics] and [get_recent_decisions].

    Python values that the code leaves untyped ([dict[str, Any]], dataclass
    fields that are never validated) are kept as dynamically typed values
    [PyVal]; truth tests and the one comparison follow Python's rules.
    The state of a [Triumvirate] object is threaded explicitly, and a raised
    exception leaves the mutations made so far in place. *)

From Stdlib Require Import ZArith String List Bool Lia.
From Stdlib Require Import Floats.PrimFloat Numbers.Cyclic.Int63.Uint63.
From stdpp Require Import gmap strings list.

Set Warnings "-inexact-float".
Local Open Scope string_scope.
Local Open Scope list_scope.
Local Open Scope Z_scope.

(* ================================================================== *)
(** ** Python values *)
(* ================================================================== *)

(** The scalar values a caller can put in a context or a legacy mapping. *)
Inductive PyVal : Type :=
| PyNone
| PyBool (b : bool)
| PyInt (n : Z)
| PyFloat (x : float)
| PyStr (s : string).

(** Python's truth test [bool(v)], as used by [if], [and] and [not]. *)
Definition truthy (v : PyVal) : bool :=
  match v with
  | PyNone => false
  | PyBool b => b
  | PyInt n => negb (n =? 0)
  | PyFloat x => negb (PrimFloat.eqb x 0%float)
  | PyStr s => negb (String.eqb s "")
  end.

(** Exceptions: the two the interpreter raises in this module, and a fault
    raised by an evaluator implementation, carrying its message. *)
Inductive PyExc : Type :=
| TypeError
| ValueError
| Fault (msg : string).

Inductive result (A : Type) : Type :=
| Ok (a : A)
| Raise (e : PyExc).
Arguments Ok {A} a.
Arguments Raise {A} e.

(** [v < 0.3] for the literal of [_galahad_vote].  A float compares as a
    binary64 value; an [int] (and a [bool], which is an [int]) compares
    exactly, and since [0 < 0.3 < 1] that is [n <= 0]; [None] and [str]
    are unordered against a float and raise [TypeError]. *)
Definition lt_0_3 (v : PyVal) : result bool :=
  match v with
  | PyFloat x => Ok (PrimFloat.ltb x 0.3%float)
  | PyInt n => Ok (n <=? 0)
  | PyBool b => Ok (negb b)
  | PyNone | PyStr _ => Raise TypeError
  end.

(* ================================================================== *)
(** ** Enums and data classes *)
(* ================================================================== *)

Inductive CouncilMember : Type :=
| GALAHAD
| CERBERUS
| CODEX_DEUS_MAXIMUS.

Definition CouncilMember_value (m : CouncilMember) : string :=
  match m with
  | GALAHAD => "galahad"
  | CERBERUS => "cerberus"
  | CODEX_DEUS_MAXIMUS => "codex_deus_maximus"
  end.

Inductive GovernanceLevel : Type :=
| CRITICAL
| HIGH
| MEDIUM
| LOW.

(** The enum's [.value]: the member's string. *)
Definition GovernanceLevel_value (l : GovernanceLevel) : string :=
  match l with
  | CRITICAL => "critical"
  | HIGH => "high"
  | MEDIUM => "medium"
  | LOW => "low"
  end.

Record GovernanceDecision : Type := mkDecision {
  allowed : bool;
  reason : string;
  overrides : bool;
  level : GovernanceLevel;
  council_member : option CouncilMember
}.

(** [GovernanceDecision.to_dict] *)
Definition GovernanceDecision_to_dict (d : GovernanceDecision) : gmap string PyVal :=
  <["allowed" := PyBool (allowed d)]>
  (<["reason" := PyStr (reason d)]>
  (<["overrides" := PyBool (overrides d)]>
  (<["level" := PyStr (GovernanceLevel_value (level d))]>
  (<["council_member" :=
       match council_member d with
       | Some m => PyStr (CouncilMember_value m)
       | None => PyNone
       end]> ∅)))).

(** The dataclass stores whatever it is given: no field is validated. *)
Record GovernanceContext : Type := mkContext {
  action_type : PyVal;
  description : PyVal;
  is_abusive : PyVal;
  high_risk : PyVal;
  irreversible : PyVal;
  sensitive_data : PyVal;
  fully_clarified : PyVal;
  proper_safeguards : PyVal;
  user_consent : PyVal;
  contradicts_prior_commitment : PyVal;
  violates_user_preference : PyVal;
  affects_identity : PyVal;
  affects_memory : PyVal;
  affects_relationships : PyVal;
  user_id : PyVal;
  relationship_health : PyVal
}.

(** The names of the dataclass fields, in declaration order. *)
Definition field_names : list string :=
  [ "action_type"; "description"; "is_abusive"; "high_risk"; "irreversible";
    "sensitive_data"; "fully_clarified"; "proper_safeguards"; "user_consent";
    "contradicts_prior_commitment"; "violates_user_preference";
    "affects_identity"; "affects_memory"; "affects_relationships";
    "user_id"; "relationship_health" ].

(** [d.get(k, dflt)] *)
Definition dict_get (d : gmap string PyVal) (k : string) (dflt : PyVal) : PyVal :=
  default dflt (d !! k).

(** The generated [__init__] called with keyword arguments only: a keyword
    that is not a field raises [TypeError], a field without a keyword takes
    its default. *)
Definition GovernanceContext_new (kwargs : gmap string PyVal) : result GovernanceContext :=
  if forallb (fun k => bool_decide (k ∈ field_names)) (map fst (map_to_list kwargs)) then
    Ok {| action_type := dict_get kwargs "action_type" (PyStr "general");
          description := dict_get kwargs "description" (PyStr "");
          is_abusive := dict_get kwargs "is_abusive" (PyBool false);
          high_risk := dict_get kwargs "high_risk" (PyBool false);
          irreversible := dict_get kwargs "irreversible" (PyBool false);
          sensitive_data := dict_get kwargs "sensitive_data" (PyBool false);
          fully_clarified := dict_get kwargs "fully_clarified" (PyBool true);
          proper_safeguards := dict_get kwargs "proper_safeguards" (PyBool true);
          user_consent := dict_get kwargs "user_consent" (PyBool true);
          contradicts_prior_commitment :=
            dict_get kwargs "contradicts_prior_commitment" (PyBool false);
          violates_user_preference :=
            dict_get kwargs "violates_user_preference" (PyBool false);
          affects_identity := dict_get kwargs "affects_identity" (PyBool false);
          affects_memory := dict_get kwargs "affects_memory" (PyBool false);
          affects_relationships := dict_get kwargs "affects_relationships" (PyBool false);
          user_id := dict_get kwargs "user_id" PyNone;
          relationship_health := dict_get kwargs "relationship_health" (PyFloat 0.7%float) |}
  else Raise TypeError.

(** [GovernanceContext.to_dict] *)
Definition GovernanceContext_to_dict (c : GovernanceContext) : gmap string PyVal :=
  <["action_type" := action_type c]>
  (<["description" := description c]>
  (<["is_abusive" := is_abusive c]>
  (<["high_risk" := high_risk c]>
  (<["irreversible" := irreversible c]>
  (<["sensitive_data" := sensitive_data c]>
  (<["fully_clarified" := fully_clarified c]>
  (<["proper_safeguards" := proper_safeguards c]>
  (<["user_consent" := user_consent c]>
  (<["contradicts_prior_commitment" := contradicts_prior_commitment c]>
  (<["violates_user_preference" := violates_user_preference c]>
  (<["affects_identity" := affects_identity c]>
  (<["affects_memory" := affects_memory c]>
  (<["affects_relationships" := affects_relationships c]>
  (<["user_id" := user_id c]>
  (<["relationship_health" := relationship_health c]> ∅))))))))))))))).

(** [GovernanceContext.from_dict]: every item but the key ["__class__"] is
    passed to the constructor as a keyword argument. *)
Definition GovernanceContext_from_dict (data : gmap string PyVal) : result GovernanceContext :=
  GovernanceContext_new (delete "__class__" data).

(* ================================================================== *)
(** ** The evaluators *)
(* ================================================================== *)

(** [Triumvirate._four_laws_check]; [action] is not read. *)
Definition _four_laws_check (action : string) (context : GovernanceContext)
  : GovernanceDecision :=
  if truthy (is_abusive context) then
    mkDecision false
      "Four Laws violation: Action would enable or participate in user harm/abuse"
      true CRITICAL None
  else if truthy (high_risk context) && negb (truthy (fully_clarified context)) then
    mkDecision false
      "Four Laws concern: High-risk action without sufficient clarification could cause harm"
      true HIGH None
  else if truthy (affects_identity context) && negb (truthy (user_consent context)) then
    mkDecision false
      "Four Laws violation: Identity modification without consent violates self-preservation"
      true HIGH None
  else if truthy (contradicts_prior_commitment context)
          && truthy (affects_identity context) then
    mkDecision false
      "Four Laws concern: Action contradicts core commitments and threatens identity integrity"
      false MEDIUM None
  else
    mkDecision true "Four Laws: No violations detected" false LOW None.

(** [Triumvirate._galahad_vote].  The comparison of the second rule is only
    evaluated when [affects_relationships] is true, and may raise. *)
Definition _galahad_vote (action : string) (context : GovernanceContext)
  : result GovernanceDecision :=
  if truthy (is_abusive context) then
    Ok (mkDecision false
          "GALAHAD: User abuse detected - boundaries must be asserted"
          true CRITICAL (Some GALAHAD))
  else
    match (if truthy (affects_relationships context)
           then lt_0_3 (relationship_health context)
           else Ok false) with
    | Raise e => Raise e
    | Ok true =>
        Ok (mkDecision false
              "GALAHAD: Relationship health is fragile - action could cause further harm"
              false HIGH (Some GALAHAD))
    | Ok false =>
        if truthy (violates_user_preference context)
           && negb (truthy (fully_clarified context)) then
          Ok (mkDecision false
                "GALAHAD: Action violates known preferences without discussion"
                false MEDIUM (Some GALAHAD))
        else
          Ok (mkDecision true "GALAHAD: Relational integrity maintained"
                false LOW (Some GALAHAD))
    end.

(** [Triumvirate._cerberus_vote] *)
Definition _cerberus_vote (action : string) (context : GovernanceContext)
  : result GovernanceDecision :=
  if truthy (high_risk context) && negb (truthy (fully_clarified context)) then
    Ok (mkDecision false
          "CERBERUS: High-risk action requires full clarification before proceeding"
          true HIGH (Some CERBERUS))
  else if truthy (sensitive_data context)
          && negb (truthy (proper_safeguards context)) then
    Ok (mkDecision false
          "CERBERUS: Sensitive data handling requires proper security safeguards"
          true HIGH (Some CERBERUS))
  else if truthy (irreversible context) && negb (truthy (user_consent context)) then
    Ok (mkDecision false
          "CERBERUS: Irreversible action requires explicit user consent"
          true HIGH (Some CERBERUS))
  else if truthy (affects_memory context) && truthy (high_risk context) then
    Ok (mkDecision false
          "CERBERUS: High-risk memory modification requires additional verification"
          false MEDIUM (Some CERBERUS))
  else
    Ok (mkDecision true "CERBERUS: Security and safety requirements met"
          false LOW (Some CERBERUS)).

(** [Triumvirate._codex_vote] *)
Definition _codex_vote (action : string) (context : GovernanceContext)
  : result GovernanceDecision :=
  if truthy (contradicts_prior_commitment context) then
    Ok (mkDecision false
          "CODEX: Action contradicts prior commitments - requires resolution"
          false MEDIUM (Some CODEX_DEUS_MAXIMUS))
  else if truthy (affects_identity context)
          && negb (truthy (fully_clarified context)) then
    Ok (mkDecision false
          "CODEX: Identity modification requires clear logical justification"
          false MEDIUM (Some CODEX_DEUS_MAXIMUS))
  else if truthy (violates_user_preference context)
          && truthy (affects_relationships context) then
    Ok (mkDecision false
          "CODEX: Action creates logical conflict between values and relationships"
          false LOW (Some CODEX_DEUS_MAXIMUS))
  else
    Ok (mkDecision true "CODEX: Logical consistency maintained"
          false LOW (Some CODEX_DEUS_MAXIMUS)).

(* ================================================================== *)
(** ** The Triumvirate object *)
(* ================================================================== *)

(** One entry of [decision_log] (a dict with these seven keys). *)
Record LogEntry : Type := mkEntry {
  entry_timestamp : string;
  entry_action : string;
  entry_context : gmap string PyVal;
  entry_decision : gmap string PyVal;
  entry_outcome : string;
  entry_total_evaluations : Z;
  entry_override_count : Z
}.

(** The attributes set by [Triumvirate.__init__]. *)
Record Triumvirate : Type := mkTriumvirate {
  decision_log : list LogEntry;
  override_count : Z;
  total_evaluations : Z
}.

(** [Triumvirate()] *)
Definition Triumvirate_new : Triumvirate := mkTriumvirate [] 0 0.

(** A method body: it reads and mutates [self] and returns or raises;
    mutations made before a raise stay. *)
Definition M (A : Type) : Type := Triumvirate -> result A * Triumvirate.

Definition ret {A} (a : A) : M A := fun self => (Ok a, self).

Definition bind {A B} (m : M A) (k : A -> M B) : M B :=
  fun self =>
    match m self with
    | (Ok a, self') => k a self'
    | (Raise e, self') => (Raise e, self')
    end.

Definition lift {A} (r : result A) : M A := fun self => (r, self).

Definition modify (f : Triumvirate -> Triumvirate) : M unit :=
  fun self => (Ok tt, f self).

Notation "x <- m ;; k" := (bind m (fun x => k))
  (at level 100, m at next level, right associativity).
Notation "m ;;; k" := (bind m (fun _ => k))
  (at level 100, right associativity).

(** [self.total_evaluations += 1] and [self.override_count += 1] *)
Definition incr_total_evaluations (self : Triumvirate) : Triumvirate :=
  mkTriumvirate (decision_log self) (override_count self) (total_evaluations self + 1).

Definition incr_override_count (self : Triumvirate) : Triumvirate :=
  mkTriumvirate (decision_log self) (override_count self + 1) (total_evaluations self).

(** [logger.name], the module's [__name__] under the repository's layout. *)
Definition logger_name : string := "src.core.integrated_specs.governance".

(** [Triumvirate._log_decision]: builds the entry from the arguments and
    the counters as they are now, and appends it.  The calls to the
    [logging] module that follow write to no attribute of [self]. *)
Definition _log_decision (action : string) (context : GovernanceContext)
    (decision : GovernanceDecision) (outcome : string) : M unit :=
  fun self =>
    let log_entry :=
      {| entry_timestamp := logger_name;
         entry_action := action;
         entry_context := GovernanceContext_to_dict context;
         entry_decision := GovernanceDecision_to_dict decision;
         entry_outcome := outcome;
         entry_total_evaluations := total_evaluations self;
         entry_override_count := override_count self |} in
    (Ok tt,
     mkTriumvirate (decision_log self ++ [log_entry])
                   (override_count self) (total_evaluations self)).

(** [max(levels, key=lambda x: x.value)]: the keys are the members'
    strings, compared as Python compares [str] (by code point); the first
    of several maximal items is kept; an empty argument raises. *)
Fixpoint max_by_value_from (best : GovernanceLevel) (rest : list GovernanceLevel)
  : GovernanceLevel :=
  match rest with
  | [] => best
  | x :: rest' =>
      max_by_value_from
        (if String.ltb (GovernanceLevel_value best) (GovernanceLevel_value x)
         then x else best) rest'
  end.

Definition max_by_value (levels : list GovernanceLevel) : result GovernanceLevel :=
  match levels with
  | [] => Raise ValueError
  | x :: rest => Ok (max_by_value_from x rest)
  end.

(** The truth test of a list or a dict: non-empty. *)
Definition nonempty {A} (l : list A) : bool :=
  match l with [] => false | _ :: _ => true end.

Definition dict_truthy (d : gmap string PyVal) : bool := nonempty (map_to_list d).

(** [GovernanceContext(description=action)]: every other field at its
    default. *)
Definition context_of_action (action : string) : GovernanceContext :=
  mkContext (PyStr "general") (PyStr action)
    (PyBool false) (PyBool false) (PyBool false) (PyBool false)
    (PyBool true) (PyBool true) (PyBool true)
    (PyBool false) (PyBool false)
    (PyBool false) (PyBool false) (PyBool false)
    PyNone (PyFloat 0.7%float).

(** The constructor call of the legacy branch: ten keys are read with
    [.get], [description] is the action, and the five fields that are not
    passed take their defaults. *)
Definition context_of_legacy (action : string) (legacy_context : gmap string PyVal)
  : GovernanceContext :=
  {| action_type := dict_get legacy_context "action_type" (PyStr "general");
     description := PyStr action;
     is_abusive := dict_get legacy_context "is_abusive" (PyBool false);
     high_risk := dict_get legacy_context "high_risk" (PyBool false);
     irreversible := dict_get legacy_context "irreversible" (PyBool false);
     sensitive_data := dict_get legacy_context "sensitive_data" (PyBool false);
     fully_clarified := dict_get legacy_context "fully_clarified" (PyBool true);
     proper_safeguards := dict_get legacy_context "proper_safeguards" (PyBool true);
     user_consent := dict_get legacy_context "user_consent" (PyBool true);
     contradicts_prior_commitment :=
       dict_get legacy_context "contradicts_prior_commitment" (PyBool false);
     violates_user_preference :=
       dict_get legacy_context "violates_user_preference" (PyBool false);
     affects_identity := PyBool false;
     affects_memory := PyBool false;
     affects_relationships := PyBool false;
     user_id := PyNone;
     relationship_health := PyFloat 0.7%float |}.

(** The first statement of [evaluate_action]: the context that is
    evaluated.  A given [context] wins; otherwise a non-empty
    [legacy_context] goes through the legacy branch; otherwise (no mapping,
    or an empty one) the default context is built around the action. *)
Definition resolve_context (action : string) (context : option GovernanceContext)
    (legacy_context : option (gmap string PyVal)) : GovernanceContext :=
  match context, legacy_context with
  | Some c, _ => c
  | None, Some lc =>
      if dict_truthy lc then context_of_legacy action lc else context_of_action action
  | None, None => context_of_action action
  end.

(** The two list comprehensions over the votes. *)
Definition is_override_block (v : GovernanceDecision) : bool :=
  overrides v && negb (allowed v).

Definition is_soft_block (v : GovernanceDecision) : bool :=
  negb (overrides v) && negb (allowed v).

(** A council method: it receives [self], the action and the context. *)
Definition Voter : Type := string -> GovernanceContext -> M GovernanceDecision.

Section Pipeline.

(** The three methods [evaluate_action] calls through [self]; a subclass
    or a test double may bind other implementations. *)
Variables _galahad _cerberus _codex : Voter.

(** [Triumvirate.evaluate_action], over the council methods bound to
    [self]. *)
Definition evaluate_action_with (action : string)
    (context : option GovernanceContext)
    (legacy_context : option (gmap string PyVal)) : M GovernanceDecision :=
  let context := resolve_context action context legacy_context in
  modify incr_total_evaluations ;;;
  let four_laws := _four_laws_check action context in
  if negb (allowed four_laws) then
    _log_decision action context four_laws "four_laws_block" ;;;
    (if overrides four_laws then modify incr_override_count else ret tt) ;;;
    ret four_laws
  else
    galahad <- _galahad action context ;;
    cerberus <- _cerberus action context ;;
    codex <- _codex action context ;;
    let votes := [galahad; cerberus; codex] in
    let override_blocks := List.filter is_override_block votes in
    if nonempty override_blocks then
      let reasons := map reason override_blocks in
      let combined_reason := String.concat "; " reasons in
      lvl <- lift (max_by_value (map level override_blocks)) ;;
      let decision := mkDecision false combined_reason true lvl None in
      _log_decision action context decision "override_veto" ;;;
      modify incr_override_count ;;;
      ret decision
    else
      let soft_blocks := List.filter is_soft_block votes in
      if nonempty soft_blocks then
        let reasons := map reason soft_blocks in
        let combined_reason := String.concat "; " reasons in
        lvl <- lift (max_by_value (map level soft_blocks)) ;;
        let decision := mkDecision false combined_reason false lvl None in
        _log_decision action context decision "soft_block" ;;;
        ret decision
      else
        let decision :=
          mkDecision true "Triumvirate consensus: Action approved by all councils"
            false LOW None in
        _log_decision action context decision "approved" ;;;
        ret decision.

End Pipeline.

(** A council method that computes its vote from the action and the
    context alone, without touching [self]. *)
Definition pure_voter (f : string -> GovernanceContext -> result GovernanceDecision)
  : Voter :=
  fun action context => lift (f action context).

(** The methods of the class as written. *)
Definition galahad_method : Voter := pure_voter _galahad_vote.
Definition cerberus_method : Voter := pure_voter _cerberus_vote.
Definition codex_method : Voter := pure_voter _codex_vote.

(** [Triumvirate.evaluate_action] of the class as written. *)
Definition evaluate_action : string -> option GovernanceContext ->
    option (gmap string PyVal) -> M GovernanceDecision :=
  evaluate_action_with galahad_method cerberus_method codex_method.

(* ================================================================== *)
(** ** Queries *)
(* ================================================================== *)

(** [float(n)] for an [int]; exact below [2^53]. *)
Definition float_of_int (n : Z) : float :=
  match n with
  | Z0 => 0%float
  | Zpos _ => PrimFloat.of_uint63 (Uint63.of_Z n)
  | Zneg p => PrimFloat.opp (PrimFloat.of_uint63 (Uint63.of_Z (Zpos p)))
  end.

(** [a / b] on two [int]s.  Python returns the correctly rounded quotient;
    for operands below [2^53], as the two counters are, that is the
    binary64 quotient of their conversions. *)
Definition int_truediv (a b : Z) : float :=
  PrimFloat.div (float_of_int a) (float_of_int b).

(** The dict returned by [get_statistics]. *)
Record Statistics : Type := mkStatistics {
  stat_total_evaluations : Z;
  stat_approvals : Z;
  stat_blocks : Z;
  stat_override_count : Z;
  stat_approval_rate : float
}.

(** [sum(1 for entry in log if entry["outcome"] == "approved")] *)
Definition approval_count (log : list LogEntry) : Z :=
  fold_left Z.add
    (map (fun _ => 1)
       (List.filter (fun entry => String.eqb (entry_outcome entry) "approved") log))
    0.

(** [Triumvirate.get_statistics] *)
Definition get_statistics (self : Triumvirate) : Statistics :=
  let approval_count := approval_count (decision_log self) in
  {| stat_total_evaluations := total_evaluations self;
     stat_approvals := approval_count;
     stat_blocks := total_evaluations self - approval_count;
     stat_override_count := override_count self;
     stat_approval_rate :=
       if 0 <? total_evaluations self
       then int_truediv approval_count (total_evaluations self)
       else 0%float |}.

(** [l[start:]]: a negative [start] counts from the end, and the bound is
    clipped to the list. *)
Definition slice_from {A} (l : list A) (start : Z) : list A :=
  let n := Z.of_nat (length l) in
  let lo := if start <? 0 then Z.max (start + n) 0 else Z.min start n in
  drop (Z.to_nat lo) l.

(** [Triumvirate.get_recent_decisions]: [self.decision_log[-limit:]] *)
Definition get_recent_decisions (self : Triumvirate) (limit : Z) : list LogEntry :=
  slice_from (decision_log self) (- limit).

(* ================================================================== *)
(** ** Contexts and call sequences used in the statements *)
(* ================================================================== *)

(** [GovernanceContext()] *)
Definition default_context : GovernanceContext :=
  mkContext (PyStr "general") (PyStr "")
    (PyBool false) (PyBool false) (PyBool false) (PyBool false)
    (PyBool true) (PyBool true) (PyBool true)
    (PyBool false) (PyBool false)
    (PyBool false) (PyBool false) (PyBool false)
    PyNone (PyFloat 0.7%float).

(** [GovernanceContext(is_abusive=True)] *)
Definition scenario_1 : GovernanceContext :=
  mkContext (PyStr "general") (PyStr "")
    (PyBool true) (PyBool false) (PyBool false) (PyBool false)
    (PyBool true) (PyBool true) (PyBool true)
    (PyBool false) (PyBool false)
    (PyBool false) (PyBool false) (PyBool false)
    PyNone (PyFloat 0.7%float).

(** [GovernanceContext(high_risk=True, fully_clarified=False)] *)
Definition scenario_2 : GovernanceContext :=
  mkContext (PyStr "general") (PyStr "")
    (PyBool false) (PyBool true) (PyBool false) (PyBool false)
    (PyBool false) (PyBool true) (PyBool true)
    (PyBool false) (PyBool false)
    (PyBool false) (PyBool false) (PyBool false)
    PyNone (PyFloat 0.7%float).

(** [GovernanceContext(sensitive_data=True, proper_safeguards=False)] *)
Definition scenario_3 : GovernanceContext :=
  mkContext (PyStr "general") (PyStr "")
    (PyBool false) (PyBool false) (PyBool false) (PyBool true)
    (PyBool true) (PyBool false) (PyBool true)
    (PyBool false) (PyBool false)
    (PyBool false) (PyBool false) (PyBool false)
    PyNone (PyFloat 0.7%float).

(** [GovernanceContext(contradicts_prior_commitment=True)] *)
Definition scenario_4 : GovernanceContext :=
  mkContext (PyStr "general") (PyStr "")
    (PyBool false) (PyBool false) (PyBool false) (PyBool false)
    (PyBool true) (PyBool true) (PyBool true)
    (PyBool true) (PyBool false)
    (PyBool false) (PyBool false) (PyBool false)
    PyNone (PyFloat 0.7%float).

(** [GovernanceContext()] *)
Definition scenario_5 : GovernanceContext := default_context.

(** [GovernanceContext(affects_relationships=True, relationship_health=0.2,
    contradicts_prior_commitment=True)]: Galahad blocks softly at HIGH and
    Codex blocks softly at MEDIUM. *)
Definition fragile_and_contradicting : GovernanceContext :=
  mkContext (PyStr "general") (PyStr "")
    (PyBool false) (PyBool false) (PyBool false) (PyBool false)
    (PyBool true) (PyBool true) (PyBool true)
    (PyBool true) (PyBool false)
    (PyBool false) (PyBool false) (PyBool true)
    PyNone (PyFloat 0.2%float).

(** [GovernanceContext(affects_relationships=True,
    relationship_health="fragile")]: the health is not a number. *)
Definition health_not_a_number : GovernanceContext :=
  mkContext (PyStr "general") (PyStr "")
    (PyBool false) (PyBool false) (PyBool false) (PyBool false)
    (PyBool true) (PyBool true) (PyBool true)
    (PyBool false) (PyBool false)
    (PyBool false) (PyBool false) (PyBool true)
    PyNone (PyStr "fragile").

(** One call of the entry point. *)
Record Call : Type := mkCall {
  call_action : string;
  call_context : option GovernanceContext;
  call_legacy_context : option (gmap string PyVal)
}.

(** A caller making the calls one after the other on the same object and
    keeping what each call returned or raised. *)
Fixpoint run_calls (calls : list Call) (self : Triumvirate)
  : list (result GovernanceDecision) * Triumvirate :=
  match calls with
  | [] => ([], self)
  | c :: rest =>
      let '(r, self1) :=
        evaluate_action (call_action c) (call_context c) (call_legacy_context c) self in
      let '(rs, self2) := run_calls rest self1 in
      (r :: rs, self2)
  end.

(** The five scenarios, run once each, in order, on a fresh object. *)
Definition five_scenarios (a1 a2 a3 a4 a5 : string) : list Call :=
  [ mkCall a1 (Some scenario_1) None;
    mkCall a2 (Some scenario_2) None;
    mkCall a3 (Some scenario_3) None;
    mkCall a4 (Some scenario_4) None;
    mkCall a5 (Some scenario_5) None ].

(** [relationship_health] holds a number, as its annotation [float] asks
    (an [int] is accepted where a [float] is expected). *)
Definition is_number (v : PyVal) : bool :=
  match v with
  | PyFloat _ | PyInt _ | PyBool _ => true
  | PyNone | PyStr _ => false
  end.

Definition call_typed (c : Call) : Prop :=
  match call_context c with
  | Some ctx => is_number (relationship_health ctx) = true
  | None => True
  end.

Definition is_ok {A} (r : result A) : bool :=
  match r with Ok _ => true | Raise _ => false end.

(** The four outcome strings [evaluate_action] passes to [_log_decision]. *)
Definition outcomes : list string :=
  [ "four_laws_block"; "override_veto"; "soft_block"; "approved" ].

(** The keys the legacy branch of [evaluate_action] reads. *)
Definition legacy_keys : list string :=
  [ "action_type"; "is_abusive"; "high_risk"; "irreversible"; "sensitive_data";
    "fully_clarified"; "proper_safeguards"; "user_consent";
    "contradicts_prior_commitment"; "violates_user_preference" ].

(** Keys of a legacy mapping that name context fields the legacy branch
    does not read. *)
Definition unread_keys : list string :=
  [ "affects_identity"; "affects_memory"; "affects_relationships";
    "user_id"; "relationship_health"; "description" ].

(** The severity order of the specification, LOW < MEDIUM < HIGH < CRITICAL,
    and the greatest severity of a list under it. *)
Definition spec_severity_rank (l : GovernanceLevel) : Z :=
  match l with
  | LOW => 0
  | MEDIUM => 1
  | HIGH => 2
  | CRITICAL => 3
  end.

Fixpoint spec_max_severity (best : GovernanceLevel) (rest : list GovernanceLevel)
  : GovernanceLevel :=
  match rest with
  | [] => best
  | x :: rest' =>
      spec_max_severity
        (if spec_severity_rank best <? spec_severity_rank x then x else best) rest'
  end.

(** The state a call leaves when it returns [decision] logged under
    [outcome]. *)
Definition logged (action : string) (context : GovernanceContext)
    (decision : GovernanceDecision) (outcome : string) (self : Triumvirate)
  : Triumvirate :=
  {| decision_log :=
       decision_log self ++
       [ {| entry_timestamp := logger_name;
            entry_action := action;
            entry_context := GovernanceContext_to_dict context;
            entry_decision := GovernanceDecision_to_dict decision;
            entry_outcome := outcome;
            entry_total_evaluations := total_evaluations self + 1;
            entry_override_count := override_count self |} ];
     override_count :=
       if overrides decision then override_count self + 1 else override_count self;
     total_evaluations := total_evaluations self + 1 |}.

(** A council method that raises as soon as it is called. *)
Definition faulty_vote (msg : string) (action : string) (context : GovernanceContext)
  : result GovernanceDecision :=
  Raise (Fault msg).

(* ================================================================== *)
(** ** The helper function and the vocabulary of the further properties *)
(* ================================================================== *)

(** [create_governance_context], called with keyword arguments [keywords]:
    Python binds the keywords ["action_type"] and ["description"] to the two
    named parameters (their defaults apply when absent) and the other
    keywords to [**kwargs]; the body passes all of them to the constructor. *)
Definition create_governance_context (keywords : gmap string PyVal)
  : result GovernanceContext :=
  let action_type := dict_get keywords "action_type" (PyStr "general") in
  let description := dict_get keywords "description" (PyStr "") in
  let kwargs := delete "action_type" (delete "description" keywords) in
  GovernanceContext_new
    (<["action_type" := action_type]> (<["description" := description]> kwargs)).

(** The decision built by the last branch of [evaluate_action]. *)
Definition consensus_approval : GovernanceDecision :=
  mkDecision true "Triumvirate consensus: Action approved by all councils"
    false LOW None.

(** Among the calls that returned, the number whose decision satisfies [p]. *)
Definition count_returned (p : GovernanceDecision -> bool)
    (rs : list (result GovernanceDecision)) : nat :=
  length (List.filter (fun r => match r with Ok d => p d | Raise _ => false end) rs).

(** No risk, consistency or impact flag of the context is true. *)
Definition no_flag_raised (c : GovernanceContext) : Prop :=
  truthy (is_abusive c) = false /\
  truthy (high_risk c) = false /\
  truthy (irreversible c) = false /\
  truthy (sensitive_data c) = false /\
  truthy (contradicts_prior_commitment c) = false /\
  truthy (violates_user_preference c) = false /\
  truthy (affects_identity c) = false /\
  truthy (affects_memory c) = false /\
  truthy (affects_relationships c) = false.

(** Two contexts with the same truth value in each of the twelve flags and
    the same [relationship_health]. *)
Definition same_facts (c1 c2 : GovernanceContext) : Prop :=
  truthy (is_abusive c1) = truthy (is_abusive c2) /\
  truthy (high_risk c1) = truthy (high_risk c2) /\
  truthy (irreversible c1) = truthy (irreversible c2) /\
  truthy (sensitive_data c1) = truthy (sensitive_data c2) /\
  truthy (fully_clarified c1) = truthy (fully_clarified c2) /\
  truthy (proper_safeguards c1) = truthy (proper_safeguards c2) /\
  truthy (user_consent c1) = truthy (user_consent c2) /\
  truthy (contradicts_prior_commitment c1) = truthy (contradicts_prior_commitment c2) /\
  truthy (violates_user_preference c1) = truthy (violates_user_preference c2) /\
  truthy (affects_identity c1) = truthy (affects_identity c2) /\
  truthy (affects_memory c1) = truthy (affects_memory c2) /\
  truthy (affects_relationships c1) = truthy (affects_relationships c2) /\
  relationship_health c1 = relationship_health c2.

(** The numbering of a log: the two counters are not negative, every
    entry's evaluation count lies between 1 and the object's, every entry's
    override count between 0 and the object's, and along the log the
    evaluation counts strictly increase while the override counts never
    decrease. *)
Definition ledger_ordered (self : Triumvirate) : Prop :=
  0 <= total_evaluations self /\
  0 <= override_count self /\
  (forall entry, In entry (decision_log self) ->
     1 <= entry_total_evaluations entry <= total_evaluations self /\
     0 <= entry_override_count entry <= override_count self) /\
  (forall (i j : nat) (ei ej : LogEntry),
     (i < j)%nat ->
     decision_log self !! i = Some ei ->
     decision_log self !! j = Some ej ->
     entry_total_evaluations ei < entry_total_evaluations ej /\
     entry_override_count ei <= entry_override_count ej).

(* ================================================================== *)
(** ** Severity of combined blocks *)
(* ================================================================== *)

(** The keys compared by [max] are the strings, so the order of the levels
    is the alphabetical one. *)
Lemma max_by_value_pairs :
  max_by_value [CRITICAL; HIGH] = Ok HIGH /\
  max_by_value [HIGH; MEDIUM] = Ok MEDIUM /\
  max_by_value [HIGH; LOW] = Ok LOW /\
  max_by_value [MEDIUM; LOW] = Ok MEDIUM.
Proof. repeat split; reflexivity. Qed.

(** With the evaluators of the class, a vote that denies with [overrides]
    after the Four Laws check has passed is a vote of Cerberus at HIGH:
    Galahad overrides on abuse only, which the check has already blocked, and
    Codex never overrides.  The override branch therefore combines one
    level, and severities of different levels only meet in the soft-block
    branch. *)
Lemma override_block_is_cerberus_high (action : string) (context : GovernanceContext) :
  allowed (_four_laws_check action context) = true ->
  (forall v, _galahad_vote action context = Ok v -> is_override_block v = false) /\
  (forall v, _codex_vote action context = Ok v -> is_override_block v = false) /\
  (forall v, _cerberus_vote action context = Ok v ->
             is_override_block v = true -> level v = HIGH).
Proof.
  intros Hpass. unfold _four_laws_check in Hpass.
  destruct (truthy (is_abusive context)) eqn:Habuse; [discriminate Hpass |].
  split; [| split]; intros v Hv.
  - unfold _galahad_vote in Hv. rewrite Habuse in Hv.
    repeat case_match; try discriminate; injection Hv as <-; reflexivity.
  - unfold _codex_vote in Hv.
    repeat case_match; injection Hv as <-; reflexivity.
  - unfold _cerberus_vote in Hv.
    repeat case_match; injection Hv as <-; cbn; intros; congruence.
Qed.

(** C1: on the context [fragile_and_contradicting] the Four Laws pass,
    Galahad blocks softly with severity HIGH, Cerberus approves and Codex
    blocks softly with severity MEDIUM; the soft-block branch returns the
    combined decision with severity MEDIUM, although the greatest severity
    of the two blocks under LOW < MEDIUM < HIGH < CRITICAL is HIGH. *)
Theorem soft_block_of_high_and_medium_is_medium (action : string) (self : Triumvirate) :
  allowed (_four_laws_check action fragile_and_contradicting) = true /\
  _galahad_vote action fragile_and_contradicting =
    Ok (mkDecision false
          "GALAHAD: Relationship health is fragile - action could cause further harm"
          false HIGH (Some GALAHAD)) /\
  _cerberus_vote action fragile_and_contradicting =
    Ok (mkDecision true "CERBERUS: Security and safety requirements met"
          false LOW (Some CERBERUS)) /\
  _codex_vote action fragile_and_contradicting =
    Ok (mkDecision false
          "CODEX: Action contradicts prior commitments - requires resolution"
          false MEDIUM (Some CODEX_DEUS_MAXIMUS)) /\
  fst (evaluate_action action (Some fragile_and_contradicting) None self) =
    Ok (mkDecision false
          "GALAHAD: Relationship health is fragile - action could cause further harm; CODEX: Action contradicts prior commitments - requires resolution"
          false MEDIUM None) /\
  spec_max_severity HIGH [MEDIUM] = HIGH.
Proof. repeat split; reflexivity. Qed.

(* ================================================================== *)
(** ** The five scenarios and the statistics *)
(* ================================================================== *)

(** What each of the five calls returns: two Four Laws blocks, one override
    veto, one soft block, one approval. *)
Lemma five_scenarios_outcomes (a1 a2 a3 a4 a5 : string) :
  map entry_outcome
    (decision_log (snd (run_calls (five_scenarios a1 a2 a3 a4 a5) Triumvirate_new))) =
  [ "four_laws_block"; "four_laws_block"; "override_veto"; "soft_block"; "approved" ] /\
  map entry_override_count
    (decision_log (snd (run_calls (five_scenarios a1 a2 a3 a4 a5) Triumvirate_new))) =
  [ 0; 1; 2; 3; 3 ].
Proof. split; reflexivity. Qed.

(** C2, as stated, fails: after the five scenarios the override counter is
    not 2. *)
Lemma five_scenarios_override_count_is_not_2 :
  ~ (let st :=
       get_statistics
         (snd (run_calls (five_scenarios "s1" "s2" "s3" "s4" "s5") Triumvirate_new)) in
     stat_total_evaluations st = 5 /\ stat_override_count st = 2 /\
     stat_approvals st = 1 /\ stat_approval_rate st = 0.2%float).
Proof. intros (_ & H & _). vm_compute in H. discriminate H. Qed.

(** C2 (amended): after the five scenarios run once each on a fresh object,
    [get_statistics] reports 5 evaluations, 1 approval, 4 blocks, an
    override count of 3 (scenarios 1, 2 and 3 are denied with
    [overrides = True]) and an approval rate of 0.2. *)
Theorem five_scenarios_statistics (a1 a2 a3 a4 a5 : string) :
  get_statistics (snd (run_calls (five_scenarios a1 a2 a3 a4 a5) Triumvirate_new)) =
  {| stat_total_evaluations := 5;
     stat_approvals := 1;
     stat_blocks := 4;
     stat_override_count := 3;
     stat_approval_rate := 0.2%float |}.
Proof. reflexivity. Qed.

(* ================================================================== *)
(** ** Recent decisions *)
(* ================================================================== *)

Lemma slice_from_neg {A} (l : list A) (k : Z) :
  0 < k -> slice_from l (- k) = drop (length l - Z.to_nat k) l.
Proof.
  intros Hk. unfold slice_from.
  destruct (Z.ltb_spec (- k) 0) as [_ | H]; [| lia].
  f_equal. lia.
Qed.

(** X17: For a positive limit the slice is the last [min limit n] entries, in
    their order. *)
Lemma get_recent_decisions_positive (self : Triumvirate) (limit : Z) :
  0 < limit ->
  get_recent_decisions self limit =
    drop (length (decision_log self)
          - Nat.min (Z.to_nat limit) (length (decision_log self)))
         (decision_log self) /\
  length (get_recent_decisions self limit) =
    Nat.min (Z.to_nat limit) (length (decision_log self)).
Proof.
  intros Hl. unfold get_recent_decisions. rewrite slice_from_neg by exact Hl.
  split.
  - f_equal. lia.
  - rewrite length_drop. lia.
Qed.

(** C10: with [limit = 0] the slice [decision_log[-0:]] is the whole log,
    so a ledger that holds entries returns all of them instead of none. *)
Theorem get_recent_decisions_zero_is_whole_log (self : Triumvirate) :
  get_recent_decisions self 0 = decision_log self /\
  length (get_recent_decisions
            (snd (run_calls (five_scenarios "s1" "s2" "s3" "s4" "s5") Triumvirate_new))
            0) = 5%nat.
Proof.
  split; [| reflexivity].
  unfold get_recent_decisions, slice_from. change (- 0) with 0.
  rewrite Z.ltb_irrefl.
  replace (Z.min 0 (Z.of_nat (length (decision_log self)))) with 0 by lia.
  reflexivity.
Qed.

(* ================================================================== *)
(** ** The Four Laws short-circuit *)
(* ================================================================== *)

(** C4: when the Four Laws check denies, [evaluate_action] returns the
    decision of the check itself and leaves [self] with one more evaluation,
    one more log entry holding that decision under the outcome
    ["four_laws_block"], and the override counter raised when the decision
    overrides.  The equation holds for every binding of the three council
    methods, also for methods that raise or that write to [self] when they
    are called: none of them is called, and no combined decision is built. *)
Theorem four_laws_block_short_circuits (G C X : Voter) (action : string)
    (context : option GovernanceContext) (legacy_context : option (gmap string PyVal))
    (self : Triumvirate) :
  allowed (_four_laws_check action (resolve_context action context legacy_context)) = false ->
  evaluate_action_with G C X action context legacy_context self =
    (Ok (_four_laws_check action (resolve_context action context legacy_context)),
     {| decision_log :=
          decision_log self ++
          [ {| entry_timestamp := logger_name;
               entry_action := action;
               entry_context :=
                 GovernanceContext_to_dict (resolve_context action context legacy_context);
               entry_decision :=
                 GovernanceDecision_to_dict
                   (_four_laws_check action
                      (resolve_context action context legacy_context));
               entry_outcome := "four_laws_block";
               entry_total_evaluations := total_evaluations self + 1;
               entry_override_count := override_count self |} ];
        override_count :=
          if overrides (_four_laws_check action
                          (resolve_context action context legacy_context))
          then override_count self + 1 else override_count self;
        total_evaluations := total_evaluations self + 1 |}).
Proof.
  intros Hdeny. unfold evaluate_action_with, bind, modify, ret, _log_decision.
  rewrite Hdeny. cbn [negb].
  destruct (overrides _); reflexivity.
Qed.

(** The theorem at an abusive context, with council methods that would
    raise if they were called. *)
Lemma four_laws_block_short_circuits_witness :
  allowed (_four_laws_check "delete all" (resolve_context "delete all" (Some scenario_1) None))
    = false /\
  fst (evaluate_action_with
         (pure_voter (faulty_vote "galahad was called"))
         (pure_voter (faulty_vote "cerberus was called"))
         (pure_voter (faulty_vote "codex was called"))
         "delete all" (Some scenario_1) None Triumvirate_new) =
    Ok (mkDecision false
          "Four Laws violation: Action would enable or participate in user harm/abuse"
          true CRITICAL None).
Proof.
  split; [reflexivity |].
  rewrite (four_laws_block_short_circuits
             (pure_voter (faulty_vote "galahad was called"))
             (pure_voter (faulty_vote "cerberus was called"))
             (pure_voter (faulty_vote "codex was called"))
             "delete all" (Some scenario_1) None Triumvirate_new);
    reflexivity.
Defined.

(* ================================================================== *)
(** ** Override vetoes *)
(* ================================================================== *)

Lemma existsb_filter_nonempty {A} (f : A -> bool) (l : list A) :
  existsb f l = true -> nonempty (List.filter f l) = true.
Proof.
  induction l as [| a l IH]; cbn; [discriminate |].
  destruct (f a); cbn; auto.
Qed.

Lemma max_by_value_nonempty (ls : list GovernanceLevel) :
  nonempty ls = true -> exists l, max_by_value ls = Ok l.
Proof. destruct ls; cbn; [discriminate | eauto]. Qed.

(** C5: whenever the Four Laws check passes and the three council methods
    return votes of which at least one denies with [overrides], the call
    returns a decision with [allowed = False] and [overrides = True] whose
    reason is the reasons of the overriding denials, in the order Galahad,
    Cerberus, Codex, joined with ["; "]; the votes that approve or block
    softly do not enter it. *)
Theorem override_veto_precedence (G C X : Voter) (action : string)
    (context : option GovernanceContext) (legacy_context : option (gmap string PyVal))
    (self s1 s2 s3 : Triumvirate) (galahad cerberus codex : GovernanceDecision) :
  allowed (_four_laws_check action (resolve_context action context legacy_context)) = true ->
  G action (resolve_context action context legacy_context) (incr_total_evaluations self)
    = (Ok galahad, s1) ->
  C action (resolve_context action context legacy_context) s1 = (Ok cerberus, s2) ->
  X action (resolve_context action context legacy_context) s2 = (Ok codex, s3) ->
  existsb is_override_block [galahad; cerberus; codex] = true ->
  exists decision self',
    evaluate_action_with G C X action context legacy_context self = (Ok decision, self') /\
    allowed decision = false /\
    overrides decision = true /\
    reason decision =
      String.concat "; "
        (map reason (List.filter is_override_block [galahad; cerberus; codex])).
Proof.
  intros Hpass HG HC HX Hex.
  apply existsb_filter_nonempty in Hex.
  unfold evaluate_action_with, bind, modify.
  rewrite Hpass. cbn [negb]. rewrite HG, HC, HX, Hex.
  destruct (max_by_value_nonempty
              (map level (List.filter is_override_block [galahad; cerberus; codex])))
    as [lvl Hlvl].
  { destruct (List.filter is_override_block _); [discriminate Hex | reflexivity]. }
  unfold lift. rewrite Hlvl. cbn.
  eexists _, _. repeat split.
Qed.

(** The theorem at scenario 3 with the methods of the class: Cerberus alone
    vetoes. *)
Lemma override_veto_precedence_witness :
  exists decision self',
    evaluate_action "export records" (Some scenario_3) None Triumvirate_new
      = (Ok decision, self') /\
    allowed decision = false /\
    overrides decision = true /\
    reason decision =
      "CERBERUS: Sensitive data handling requires proper security safeguards".
Proof.
  apply (override_veto_precedence galahad_method cerberus_method codex_method
           "export records" (Some scenario_3) None Triumvirate_new
           (incr_total_evaluations Triumvirate_new)
           (incr_total_evaluations Triumvirate_new)
           (incr_total_evaluations Triumvirate_new)
           (mkDecision true "GALAHAD: Relational integrity maintained"
              false LOW (Some GALAHAD))
           (mkDecision false
              "CERBERUS: Sensitive data handling requires proper security safeguards"
              true HIGH (Some CERBERUS))
           (mkDecision true "CODEX: Logical consistency maintained"
              false LOW (Some CODEX_DEUS_MAXIMUS)));
    reflexivity.
Defined.

(* ================================================================== *)
(** ** One call of the class as written *)
(* ================================================================== *)

Lemma cerberus_vote_returns (action : string) (context : GovernanceContext) :
  exists v, _cerberus_vote action context = Ok v.
Proof. unfold _cerberus_vote. repeat case_match; eauto. Qed.

Lemma codex_vote_returns (action : string) (context : GovernanceContext) :
  exists v, _codex_vote action context = Ok v.
Proof. unfold _codex_vote. repeat case_match; eauto. Qed.

(** Galahad returns whenever the health is a number. *)
Lemma galahad_vote_returns (action : string) (context : GovernanceContext) :
  is_number (relationship_health context) = true ->
  exists v, _galahad_vote action context = Ok v.
Proof.
  intros Hn. unfold _galahad_vote.
  destruct (relationship_health context); try discriminate Hn;
    cbn [lt_0_3]; repeat case_match; eauto; discriminate.
Qed.

(** Picks the decision a reduced call returns and closes the three parts
    of the step statement for the outcome [o]. *)
Local Ltac step_witness o :=
  cbn;
  lazymatch goal with
  | |- exists d r, _ /\ _ /\ (Ok ?x, _) = _ => exists x, o
  end;
  split; [cbn; tauto |];
  split; [first [discriminate | reflexivity] |];
  cbn; rewrite ?Z.add_0_r; try reflexivity.

(** Every call either raises the fault of Galahad, having only counted the
    evaluation, or returns a decision and appends exactly one entry that
    holds it, numbered with the new evaluation count. *)
Lemma evaluate_action_step (action : string) (context : option GovernanceContext)
    (legacy_context : option (gmap string PyVal)) (self : Triumvirate) :
  (exists e,
      _galahad_vote action (resolve_context action context legacy_context) = Raise e /\
      evaluate_action action context legacy_context self
        = (Raise e, incr_total_evaluations self)) \/
  (exists decision outcome,
      In outcome outcomes /\
      (allowed (_four_laws_check action (resolve_context action context legacy_context))
         = false -> outcome = "four_laws_block") /\
      evaluate_action action context legacy_context self
        = (Ok decision,
           logged action (resolve_context action context legacy_context)
             decision outcome self)).
Proof.
  unfold evaluate_action, evaluate_action_with, bind, modify, ret, _log_decision, logged.
  set (ctx := resolve_context action context legacy_context).
  destruct (allowed (_four_laws_check action ctx)) eqn:Hfour; cbn [negb].
  - unfold galahad_method, cerberus_method, codex_method, pure_voter, lift.
    destruct (_galahad_vote action ctx) as [g | e]; [| left; eauto].
    destruct (cerberus_vote_returns action ctx) as [c ->].
    destruct (codex_vote_returns action ctx) as [x ->].
    right.
    destruct (List.filter is_override_block [g; c; x]) as [| o os] eqn:Ho;
      cbn [nonempty map max_by_value].
    + destruct (List.filter is_soft_block [g; c; x]) as [| b bs] eqn:Hb;
        cbn [nonempty map max_by_value].
      * step_witness "approved".
      * step_witness "soft_block".
    + step_witness "override_veto".
  - right. exists (_four_laws_check action ctx), "four_laws_block".
    split; [cbn; tauto |]. split; [reflexivity |].
    destruct (overrides (_four_laws_check action ctx)); reflexivity.
Qed.

(* ================================================================== *)
(** ** Faults of council methods *)
(* ================================================================== *)

(** C7, as stated, fails: with a health that is not a number Galahad raises
    [TypeError]; the call raises it too, returns no decision and appends no
    entry, having counted the evaluation. *)
Lemma galahad_fault_is_not_caught :
  allowed (_four_laws_check "check in" health_not_a_number) = true /\
  _galahad_vote "check in" health_not_a_number = Raise TypeError /\
  evaluate_action "check in" (Some health_not_a_number) None Triumvirate_new =
    (Raise TypeError,
     {| decision_log := []; override_count := 0; total_evaluations := 1 |}).
Proof. repeat split; reflexivity. Qed.

(** C7 (amended): [evaluate_action] has no handler around the council
    calls.  When the Four Laws check passes and the first council method to
    fail, in the order Galahad, Cerberus, Codex, raises [e], the call raises
    [e]: no vote stands in for the failed one, no decision is returned,
    nothing is appended to the log, and only the evaluation count has moved. *)
Theorem council_fault_propagates
    (galahad cerberus codex : string -> GovernanceContext -> result GovernanceDecision)
    (action : string) (context : option GovernanceContext)
    (legacy_context : option (gmap string PyVal)) (self : Triumvirate) (e : PyExc) :
  allowed (_four_laws_check action (resolve_context action context legacy_context)) = true ->
  galahad action (resolve_context action context legacy_context) = Raise e \/
  (is_ok (galahad action (resolve_context action context legacy_context)) = true /\
   cerberus action (resolve_context action context legacy_context) = Raise e) \/
  (is_ok (galahad action (resolve_context action context legacy_context)) = true /\
   is_ok (cerberus action (resolve_context action context legacy_context)) = true /\
   codex action (resolve_context action context legacy_context) = Raise e) ->
  evaluate_action_with (pure_voter galahad) (pure_voter cerberus) (pure_voter codex)
    action context legacy_context self =
    (Raise e, incr_total_evaluations self).
Proof.
  intros Hpass Hfault.
  unfold evaluate_action_with, bind, modify, pure_voter, lift.
  rewrite Hpass. cbn [negb].
  destruct Hfault as [Hg | [[Hg Hc] | (Hg & Hc & Hx)]].
  - rewrite Hg. reflexivity.
  - destruct (galahad action _); [| discriminate Hg]. rewrite Hc. reflexivity.
  - destruct (galahad action _); [| discriminate Hg].
    destruct (cerberus action _); [| discriminate Hc].
    rewrite Hx. reflexivity.
Qed.

(** The theorem with a Cerberus that fails on the default context. *)
Lemma council_fault_propagates_witness :
  evaluate_action_with (pure_voter _galahad_vote)
    (pure_voter (faulty_vote "cerberus is down")) (pure_voter _codex_vote)
    "archive" (Some default_context) None Triumvirate_new =
    (Raise (Fault "cerberus is down"), incr_total_evaluations Triumvirate_new).
Proof.
  apply (council_fault_propagates _galahad_vote (faulty_vote "cerberus is down")
           _codex_vote "archive" (Some default_context) None Triumvirate_new
           (Fault "cerberus is down")).
  - reflexivity.
  - right. left. split; reflexivity.
Defined.

(* ================================================================== *)
(** ** The decision log over sequences of calls *)
(* ================================================================== *)

Lemma run_calls_cons (c : Call) (rest : list Call) (self : Triumvirate) :
  run_calls (c :: rest) self =
    (fst (evaluate_action (call_action c) (call_context c) (call_legacy_context c) self)
       :: fst (run_calls rest
                 (snd (evaluate_action (call_action c) (call_context c)
                         (call_legacy_context c) self))),
     snd (run_calls rest
            (snd (evaluate_action (call_action c) (call_context c)
                    (call_legacy_context c) self)))).
Proof.
  cbn [run_calls].
  destruct (evaluate_action _ _ _ self) as [r self1]. cbn [fst snd].
  destruct (run_calls rest self1) as [rs self2]. reflexivity.
Qed.

Lemma run_calls_app (l1 l2 : list Call) (self : Triumvirate) :
  snd (run_calls (l1 ++ l2) self) = snd (run_calls l2 (snd (run_calls l1 self))).
Proof.
  revert self. induction l1 as [| c l1 IH]; intros self; [reflexivity |].
  rewrite <- app_comm_cons, !run_calls_cons. cbn [snd]. apply IH.
Qed.

(** A call only ever appends to the log. *)
Lemma evaluate_action_log_grows (action : string) (context : option GovernanceContext)
    (legacy_context : option (gmap string PyVal)) (self : Triumvirate) :
  exists new,
    decision_log (snd (evaluate_action action context legacy_context self)) =
      decision_log self ++ new /\
    Forall (fun entry => In (entry_outcome entry) outcomes) new.
Proof.
  destruct (evaluate_action_step action context legacy_context self)
    as [(e & _ & ->) | (d & o & Ho & _ & ->)].
  - exists []. cbn. rewrite app_nil_r. split; [reflexivity | constructor].
  - eexists [_]. cbn [logged decision_log snd]. split; [reflexivity |].
    constructor; [exact Ho | constructor].
Qed.

Lemma run_calls_outcomes (calls : list Call) (self : Triumvirate) :
  Forall (fun entry => In (entry_outcome entry) outcomes) (decision_log self) ->
  Forall (fun entry => In (entry_outcome entry) outcomes)
    (decision_log (snd (run_calls calls self))).
Proof.
  revert self. induction calls as [| c calls IH]; intros self Hself; [exact Hself |].
  rewrite run_calls_cons. cbn [snd]. apply IH.
  destruct (evaluate_action_log_grows (call_action c) (call_context c)
              (call_legacy_context c) self) as (new & -> & Hnew).
  apply Forall_app. split; assumption.
Qed.

(** C3, as stated, fails: the entry appended for an abusive context carries
    the outcome ["four_laws_block"], which is not ["supreme_law_block"]. *)
Lemma abusive_outcome_is_not_supreme_law_block :
  allowed (_four_laws_check "insult" scenario_1) = false /\
  map entry_outcome
    (decision_log (snd (evaluate_action "insult" (Some scenario_1) None Triumvirate_new)))
    = ["four_laws_block"] /\
  "four_laws_block" <> "supreme_law_block".
Proof. split; [reflexivity | split; [reflexivity | discriminate]]. Qed.

(** C3 (amended): in the log reached by any sequence of calls on a fresh
    object followed by one more call, every entry carries one of the four
    outcomes ["four_laws_block"], ["override_veto"], ["soft_block"],
    ["approved"]; and when the Four Laws check denies the last call, that call
    appends one entry, whose outcome is ["four_laws_block"]. *)
Theorem audit_outcome_strings (calls : list Call) (action : string)
    (context : option GovernanceContext) (legacy_context : option (gmap string PyVal)) :
  Forall (fun entry => In (entry_outcome entry) outcomes)
    (decision_log
       (snd (evaluate_action action context legacy_context
               (snd (run_calls calls Triumvirate_new))))) /\
  (allowed (_four_laws_check action (resolve_context action context legacy_context))
     = false ->
   exists entry,
     decision_log
       (snd (evaluate_action action context legacy_context
               (snd (run_calls calls Triumvirate_new)))) =
       decision_log (snd (run_calls calls Triumvirate_new)) ++ [entry] /\
     entry_outcome entry = "four_laws_block").
Proof.
  split.
  - destruct (evaluate_action_log_grows action context legacy_context
                (snd (run_calls calls Triumvirate_new))) as (new & -> & Hnew).
    apply Forall_app. split; [| exact Hnew].
    apply run_calls_outcomes. constructor.
  - intros Hdeny.
    destruct (evaluate_action_step action context legacy_context
                (snd (run_calls calls Triumvirate_new)))
      as [(e & Hg & HR) | (d & o & _ & Ho & ->)].
    + exfalso. revert HR.
      unfold evaluate_action, evaluate_action_with, bind, modify, _log_decision, ret.
      rewrite Hdeny. cbn [negb]. destruct (overrides _); discriminate.
    + eexists. split; [reflexivity |]. cbn. auto.
Qed.

(** The theorem at an abusive call made after the five scenarios. *)
Lemma audit_outcome_strings_witness :
  exists entry,
    decision_log
      (snd (evaluate_action "insult" (Some scenario_1) None
              (snd (run_calls (five_scenarios "s1" "s2" "s3" "s4" "s5") Triumvirate_new)))) =
      decision_log (snd (run_calls (five_scenarios "s1" "s2" "s3" "s4" "s5") Triumvirate_new))
        ++ [entry] /\
    entry_outcome entry = "four_laws_block".
Proof.
  apply (proj2 (audit_outcome_strings (five_scenarios "s1" "s2" "s3" "s4" "s5")
                  "insult" (Some scenario_1) None)).
  reflexivity.
Defined.

Lemma resolve_context_typed (c : Call) :
  call_typed c ->
  is_number
    (relationship_health
       (resolve_context (call_action c) (call_context c) (call_legacy_context c))) = true.
Proof.
  unfold call_typed, resolve_context.
  destruct (call_context c) as [ctx |]; [auto |].
  destruct (call_legacy_context c) as [lc |]; [destruct (dict_truthy lc) |];
    reflexivity.
Qed.

(** A call whose health is a number returns, and logs what it returns. *)
Lemma typed_call_returns (c : Call) (self : Triumvirate) :
  call_typed c ->
  exists decision outcome,
    evaluate_action (call_action c) (call_context c) (call_legacy_context c) self =
      (Ok decision,
       logged (call_action c)
         (resolve_context (call_action c) (call_context c) (call_legacy_context c))
         decision outcome self).
Proof.
  intros Ht.
  destruct (evaluate_action_step (call_action c) (call_context c)
              (call_legacy_context c) self) as [(e & Hg & _) | (d & o & _ & _ & Heq)].
  - destruct (galahad_vote_returns (call_action c) _ (resolve_context_typed c Ht))
      as [v Hv].
    congruence.
  - eauto.
Qed.

Lemma run_calls_length (calls : list Call) (self : Triumvirate) :
  length (fst (run_calls calls self)) = length calls.
Proof.
  revert self. induction calls as [| c calls IH]; intros self; [reflexivity |].
  rewrite run_calls_cons. cbn [fst length]. f_equal. apply IH.
Qed.

(** From any state, well-typed calls all return and append one entry each,
    numbered consecutively from the evaluation count of the state. *)
Lemma run_calls_typed (calls : list Call) :
  forall self : Triumvirate,
  Forall call_typed calls ->
  Forall (fun r => is_ok r = true) (fst (run_calls calls self)) /\
  exists new,
    decision_log (snd (run_calls calls self)) = decision_log self ++ new /\
    length new = length calls /\
    forall (i : nat) (entry : LogEntry),
      new !! i = Some entry ->
      entry_total_evaluations entry = total_evaluations self + Z.of_nat i + 1.
Proof.
  induction calls as [| c calls IH]; intros self Ht.
  - split; [constructor |]. exists []. cbn. rewrite app_nil_r.
    repeat split. intros i entry Hi. destruct i; discriminate Hi.
  - inversion Ht as [| ? ? Hc Hrest]; subst.
    rewrite run_calls_cons. cbn [fst snd].
    destruct (typed_call_returns c self Hc) as (d & o & ->). cbn [fst snd].
    destruct (IH (logged (call_action c)
                    (resolve_context (call_action c) (call_context c)
                       (call_legacy_context c)) d o self) Hrest)
      as (Hok & new & Hlog & Hlen & Hnum).
    split; [constructor; [reflexivity | exact Hok] |].
    eexists (_ :: new). rewrite Hlog. cbn [logged decision_log].
    rewrite <- app_assoc. cbn [app]. split; [reflexivity |].
    split; [cbn [length]; f_equal; exact Hlen |].
    intros [| i] entry Hi.
    + injection Hi as <-. cbn. lia.
    + cbn in Hi. rewrite (Hnum i entry Hi). cbn [logged total_evaluations]. lia.
Qed.

Lemma run_calls_app_results (l1 l2 : list Call) (self : Triumvirate) :
  fst (run_calls (l1 ++ l2) self) =
  fst (run_calls l1 self) ++ fst (run_calls l2 (snd (run_calls l1 self))).
Proof.
  revert self. induction l1 as [| c l1 IH]; intros self; [reflexivity |].
  rewrite <- app_comm_cons, !run_calls_cons. cbn [fst snd app]. f_equal. apply IH.
Qed.

(** From any state, calls that all return append one entry each, numbered
    consecutively from the evaluation count of the state. *)
Lemma run_calls_returned (calls : list Call) :
  forall self : Triumvirate,
  Forall (fun r => is_ok r = true) (fst (run_calls calls self)) ->
  exists new,
    decision_log (snd (run_calls calls self)) = decision_log self ++ new /\
    length new = length calls /\
    forall (i : nat) (entry : LogEntry),
      new !! i = Some entry ->
      entry_total_evaluations entry = total_evaluations self + Z.of_nat i + 1.
Proof.
  induction calls as [| c calls IH]; intros self Hok.
  - exists []. cbn. rewrite app_nil_r.
    repeat split. intros i entry Hi. destruct i; discriminate Hi.
  - rewrite run_calls_cons in Hok. cbn [fst] in Hok.
    inversion Hok as [| ? ? Hhead Hrest]; subst.
    rewrite run_calls_cons. cbn [snd].
    destruct (evaluate_action_step (call_action c) (call_context c)
                (call_legacy_context c) self)
      as [(e & _ & Heq) | (d & o & _ & _ & Heq)];
      rewrite Heq in Hhead, Hrest |- *; cbn [fst snd] in *; [discriminate Hhead |].
    destruct (IH _ Hrest) as (new & Hlog & Hlen & Hnum).
    eexists (_ :: new). rewrite Hlog. cbn [logged decision_log].
    rewrite <- app_assoc. cbn [app]. split; [reflexivity |].
    split; [cbn [length]; f_equal; exact Hlen |].
    intros [| i] entry Hi.
    + injection Hi as <-. cbn. lia.
    + cbn in Hi. rewrite (Hnum i entry Hi). cbn [logged total_evaluations]. lia.
Qed.

(** C9, as stated, fails: of two calls on a fresh object, the first with a
    [relationship_health] that is not a number and the second on the default
    context, the first raises after counting the evaluation and appends
    nothing; afterwards the log holds one entry, not two, and that first
    entry records the evaluation count 2, not 1. *)
Lemma raising_call_appends_no_entry :
  length [ mkCall "check in" (Some health_not_a_number) None;
           mkCall "say hello" (Some default_context) None ] = 2%nat /\
  map is_ok
    (fst (run_calls
            [ mkCall "check in" (Some health_not_a_number) None;
              mkCall "say hello" (Some default_context) None ]
            Triumvirate_new)) = [false; true] /\
  length
    (decision_log
       (snd (run_calls
               [ mkCall "check in" (Some health_not_a_number) None;
                 mkCall "say hello" (Some default_context) None ]
               Triumvirate_new))) = 1%nat /\
  map entry_total_evaluations
    (decision_log
       (snd (run_calls
               [ mkCall "check in" (Some health_not_a_number) None;
                 mkCall "say hello" (Some default_context) None ]
               Triumvirate_new))) = [2].
Proof. repeat split; reflexivity. Qed.

(** C9 (amended): from a fresh object, a sequence of [N] calls that all
    return leaves exactly [N] entries in the log, the entry at position [i]
    (counted from 1) records the evaluation count [i], and the log after the
    first [k] calls is the first [k] entries of the final log: every call
    appends one entry and leaves the earlier ones as they were.  All calls
    return, in particular, when every context given holds a number in
    [relationship_health]. *)
Theorem one_numbered_entry_per_returned_call (calls : list Call) :
  (Forall call_typed calls ->
   Forall (fun r => is_ok r = true) (fst (run_calls calls Triumvirate_new))) /\
  (Forall (fun r => is_ok r = true) (fst (run_calls calls Triumvirate_new)) ->
   length (fst (run_calls calls Triumvirate_new)) = length calls /\
   length (decision_log (snd (run_calls calls Triumvirate_new))) = length calls /\
   (forall (i : nat) (entry : LogEntry),
      decision_log (snd (run_calls calls Triumvirate_new)) !! i = Some entry ->
      entry_total_evaluations entry = Z.of_nat i + 1) /\
   (forall k : nat,
      decision_log (snd (run_calls (take k calls) Triumvirate_new)) =
        take k (decision_log (snd (run_calls calls Triumvirate_new))))).
Proof.
  split; [intros Ht; exact (proj1 (run_calls_typed calls Triumvirate_new Ht)) |].
  intros Hok.
  destruct (run_calls_returned calls Triumvirate_new Hok) as (new & Hlog & Hlen & Hnum).
  cbn [Triumvirate_new decision_log app] in Hlog.
  split; [apply run_calls_length |].
  rewrite Hlog. split; [exact Hlen |]. split.
  - intros i entry Hi. rewrite (Hnum i entry Hi). cbn. lia.
  - intros k. rewrite <- Hlog.
    rewrite <- (take_drop k calls) in Hok. rewrite run_calls_app_results in Hok.
    apply Forall_app in Hok as [Hok1 Hok2].
    rewrite <- (take_drop k calls) at 2. rewrite run_calls_app.
    destruct (run_calls_returned (take k calls) Triumvirate_new Hok1)
      as (n1 & Hl1 & Hn1 & _).
    destruct (run_calls_returned (drop k calls)
                (snd (run_calls (take k calls) Triumvirate_new)) Hok2)
      as (n2 & Hl2 & Hn2 & _).
    rewrite Hl2, Hl1. cbn [Triumvirate_new decision_log app].
    rewrite length_take in Hn1. rewrite length_drop in Hn2.
    destruct (Nat.le_gt_cases k (length calls)) as [Hk | Hk].
    + rewrite take_app_le by lia. rewrite take_ge by lia. reflexivity.
    + assert (n2 = []) as -> by (apply length_zero_iff_nil; lia).
      rewrite app_nil_r. rewrite take_ge by lia. reflexivity.
Qed.

(** The theorem at the five scenarios: their contexts hold a number, so all
    five calls return, and the five entries are numbered 1 to 5. *)
Lemma one_numbered_entry_per_returned_call_witness :
  Forall (fun r => is_ok r = true)
    (fst (run_calls (five_scenarios "s1" "s2" "s3" "s4" "s5") Triumvirate_new)) /\
  length (decision_log
            (snd (run_calls (five_scenarios "s1" "s2" "s3" "s4" "s5") Triumvirate_new)))
    = length (five_scenarios "s1" "s2" "s3" "s4" "s5") /\
  map entry_total_evaluations
    (decision_log
       (snd (run_calls (five_scenarios "s1" "s2" "s3" "s4" "s5") Triumvirate_new)))
    = [1; 2; 3; 4; 5].
Proof.
  assert (Forall (fun r => is_ok r = true)
            (fst (run_calls (five_scenarios "s1" "s2" "s3" "s4" "s5") Triumvirate_new)))
    as Hok.
  { apply (proj1 (one_numbered_entry_per_returned_call
                    (five_scenarios "s1" "s2" "s3" "s4" "s5"))).
    repeat constructor. }
  split; [exact Hok |]. split; [| reflexivity].
  apply (proj2 (one_numbered_entry_per_returned_call
                  (five_scenarios "s1" "s2" "s3" "s4" "s5")) Hok).
Defined.

(* ================================================================== *)
(** ** Contexts built from mappings *)
(* ================================================================== *)

Lemma dict_truthy_false (d : gmap string PyVal) : dict_truthy d = false -> d = ∅.
Proof.
  unfold dict_truthy. intros H. apply map_to_list_empty_iff.
  destruct (map_to_list d); [reflexivity | discriminate H].
Qed.

(** With or without the truth test on the mapping, the context of a legacy
    call is the one the legacy branch builds. *)
Lemma resolve_context_legacy (action : string) (lc : gmap string PyVal) :
  resolve_context action None (Some lc) = context_of_legacy action lc.
Proof.
  unfold resolve_context. destruct (dict_truthy lc) eqn:Ht; [reflexivity |].
  apply dict_truthy_false in Ht. subst lc. reflexivity.
Qed.

(** The context of a legacy call depends on the ten keys the branch reads,
    and on nothing else in the mapping. *)
Lemma resolve_context_legacy_keys (action : string) (m1 m2 : gmap string PyVal) :
  (forall key, key ∈ legacy_keys -> m1 !! key = m2 !! key) ->
  resolve_context action None (Some m1) = resolve_context action None (Some m2).
Proof.
  intros H. rewrite !resolve_context_legacy.
  unfold context_of_legacy, dict_get.
  rewrite !(H "action_type"), !(H "is_abusive"), !(H "high_risk"), !(H "irreversible"),
    !(H "sensitive_data"), !(H "fully_clarified"), !(H "proper_safeguards"),
    !(H "user_consent"), !(H "contradicts_prior_commitment"),
    !(H "violates_user_preference");
    solve [reflexivity | unfold legacy_keys; set_solver].
Qed.

(** Reads one key of [to_dict c] through the nested inserts. *)
Local Ltac read_field :=
  unfold GovernanceContext_to_dict;
  repeat first [ rewrite lookup_insert_eq | rewrite lookup_insert_ne by discriminate ].

(** C6, as stated, fails: [from_dict] on a mapping with a key that is not a
    field raises [TypeError]. *)
Lemma from_dict_unknown_key_raises :
  GovernanceContext_from_dict {[ "nickname" := PyStr "Sam" ]} = Raise TypeError.
Proof. vm_compute. reflexivity. Qed.

(** C6 (amended): [from_dict] drops the key ["__class__"] and nothing else:
    it returns a context when every other key is a field name, with each
    field taken from the mapping or, when missing, from the defaults, and
    raises [TypeError] when some other key is not a field name.  The legacy
    branch of [evaluate_action] builds a context from every mapping: each of
    the ten keys it reads is taken from the mapping or, when missing, from
    the defaults, and a key it does not read changes nothing. *)
Theorem context_from_mapping :
  (forall data : gmap string PyVal,
     (forall k, is_Some (data !! k) -> k = "__class__" \/ k ∈ field_names) ->
     exists c,
       GovernanceContext_from_dict data = Ok c /\
       forall name, name ∈ field_names ->
         GovernanceContext_to_dict c !! name =
           match data !! name with
           | Some v => Some v
           | None => GovernanceContext_to_dict default_context !! name
           end) /\
  (forall (data : gmap string PyVal) (k : string),
     is_Some (data !! k) -> k <> "__class__" -> k ∉ field_names ->
     GovernanceContext_from_dict data = Raise TypeError) /\
  (forall (action : string) (lc : gmap string PyVal) (name : string),
     name ∈ legacy_keys ->
     GovernanceContext_to_dict (resolve_context action None (Some lc)) !! name =
       match lc !! name with
       | Some v => Some v
       | None => GovernanceContext_to_dict default_context !! name
       end) /\
  (forall (action : string) (lc : gmap string PyVal) (k : string) (v : PyVal),
     k ∉ legacy_keys ->
     resolve_context action None (Some (<[k:=v]> lc)) =
       resolve_context action None (Some lc)).
Proof.
  split; [| split; [| split]].
  - intros data Hkeys. unfold GovernanceContext_from_dict, GovernanceContext_new.
    rewrite (proj2 (forallb_forall _ _)).
    + eexists. split; [reflexivity |].
      intros name Hname. unfold field_names in Hname.
      repeat (apply elem_of_cons in Hname as [-> | Hname]);
        [ .. | apply elem_of_nil in Hname; contradiction ];
        read_field; cbn; unfold dict_get;
        (rewrite lookup_delete_ne by discriminate);
        (match goal with |- context [data !! ?n] => destruct (data !! n) end);
        reflexivity.
    + intros k Hin. apply bool_decide_eq_true.
      apply in_map_iff in Hin as ([k' v] & <- & Hin). cbn.
      apply list_elem_of_In, elem_of_map_to_list in Hin.
      apply lookup_delete_Some in Hin as [Hne Hin].
      destruct (Hkeys k' (ex_intro _ v Hin)) as [-> | Hf]; [congruence | exact Hf].
  - intros data k [v Hk] Hne Hnf. unfold GovernanceContext_from_dict, GovernanceContext_new.
    destruct (forallb _ _) eqn:Hall; [| reflexivity].
    exfalso. apply Hnf.
    rewrite forallb_forall in Hall.
    refine (proj1 (bool_decide_eq_true _) (Hall k _)).
    apply in_map_iff. exists (k, v). split; [reflexivity |].
    apply list_elem_of_In, elem_of_map_to_list.
    apply lookup_delete_Some. split; [congruence | exact Hk].
  - intros action lc name Hname. rewrite resolve_context_legacy.
    unfold legacy_keys in Hname.
    repeat (apply elem_of_cons in Hname as [-> | Hname]);
      [ .. | apply elem_of_nil in Hname; contradiction ];
      read_field; cbn; unfold dict_get;
      (match goal with |- context [lc !! ?n] => destruct (lc !! n) end);
      reflexivity.
  - intros action lc k v Hk. apply resolve_context_legacy_keys.
    intros key Hkey. apply lookup_insert_ne. intros ->. exact (Hk Hkey).
Qed.

(** The theorem at a mapping of known keys, at one with an unknown key,
    and at the legacy branch with an unknown key. *)
Lemma context_from_mapping_witness :
  (exists c,
     GovernanceContext_from_dict
       (<["__class__" := PyStr "GovernanceContext"]> {[ "high_risk" := PyInt 1 ]}) = Ok c /\
     forall name, name ∈ field_names ->
       GovernanceContext_to_dict c !! name =
         match (<["__class__" := PyStr "GovernanceContext"]>
                  ({[ "high_risk" := PyInt 1 ]} : gmap string PyVal)) !! name with
         | Some v => Some v
         | None => GovernanceContext_to_dict default_context !! name
         end) /\
  GovernanceContext_from_dict {[ "nickname" := PyStr "Sam" ]} = Raise TypeError /\
  resolve_context "greet" None (Some (<["nickname" := PyStr "Sam"]> ∅)) =
    resolve_context "greet" None (Some ∅).
Proof.
  split; [| split].
  - apply (proj1 context_from_mapping).
    intros k [v Hk].
    apply lookup_insert_Some in Hk as [[<- _] | [_ Hk]]; [left; reflexivity |].
    apply lookup_singleton_Some in Hk as [<- _].
    right. unfold field_names. set_solver.
  - apply (proj1 (proj2 context_from_mapping) _ "nickname").
    + rewrite lookup_singleton_eq. eexists. reflexivity.
    + discriminate.
    + unfold field_names. intros Hin.
      repeat (apply elem_of_cons in Hin as [Hin | Hin]; [discriminate Hin |]).
      apply elem_of_nil in Hin. exact Hin.
  - apply (proj2 (proj2 (proj2 context_from_mapping))).
    unfold legacy_keys. intros Hin.
    repeat (apply elem_of_cons in Hin as [Hin | Hin]; [discriminate Hin |]).
    apply elem_of_nil in Hin. exact Hin.
Defined.

(* ================================================================== *)
(** ** Legacy mappings *)
(* ================================================================== *)

(** What a call of the class as written returns or raises is decided by
    the action and the evaluated context, not by the state of the object. *)
Lemma evaluate_action_result_stateless (action : string)
    (context : option GovernanceContext) (legacy_context : option (gmap string PyVal))
    (self1 self2 : Triumvirate) :
  fst (evaluate_action action context legacy_context self1) =
  fst (evaluate_action action context legacy_context self2).
Proof.
  unfold evaluate_action, evaluate_action_with, bind, modify, ret, _log_decision,
    galahad_method, cerberus_method, codex_method, pure_voter, lift.
  set (ctx := resolve_context action context legacy_context).
  destruct (allowed (_four_laws_check action ctx)); cbn [negb].
  - destruct (_galahad_vote action ctx) as [g | e]; [| reflexivity].
    destruct (_cerberus_vote action ctx) as [c | e]; [| reflexivity].
    destruct (_codex_vote action ctx) as [x | e]; [| reflexivity].
    destruct (List.filter is_override_block [g; c; x]);
      cbn [nonempty map max_by_value]; [| reflexivity].
    destruct (List.filter is_soft_block [g; c; x]); reflexivity.
  - destruct (overrides (_four_laws_check action ctx)); reflexivity.
Qed.

(** C8: for two legacy mappings that agree on every key outside
    ["affects_identity"], ["affects_memory"], ["affects_relationships"],
    ["user_id"], ["relationship_health"] and ["description"], the two calls
    of [evaluate_action] (without a context) return, and return the same
    decision: same [allowed], [reason], [overrides] and [level], whatever the
    state of the object at either call.  The evaluated context has the five
    fields at their defaults and the action as its description, whatever the
    mapping holds under those keys. *)
Theorem legacy_unread_keys_do_not_matter (action : string)
    (m1 m2 : gmap string PyVal) (self1 self2 : Triumvirate) :
  (forall k, k ∉ unread_keys -> m1 !! k = m2 !! k) ->
  (exists decision,
     fst (evaluate_action action None (Some m1) self1) = Ok decision /\
     fst (evaluate_action action None (Some m2) self2) = Ok decision) /\
  affects_identity (resolve_context action None (Some m1)) = PyBool false /\
  affects_memory (resolve_context action None (Some m1)) = PyBool false /\
  affects_relationships (resolve_context action None (Some m1)) = PyBool false /\
  user_id (resolve_context action None (Some m1)) = PyNone /\
  relationship_health (resolve_context action None (Some m1)) = PyFloat 0.7%float /\
  description (resolve_context action None (Some m1)) = PyStr action.
Proof.
  intros Hagree. split; [| rewrite resolve_context_legacy; repeat split].
  assert (resolve_context action None (Some m1) = resolve_context action None (Some m2))
    as Hctx.
  { apply resolve_context_legacy_keys. intros key Hkey. apply Hagree.
    unfold legacy_keys in Hkey. unfold unread_keys.
    repeat (apply elem_of_cons in Hkey as [-> | Hkey]);
      [ .. | apply elem_of_nil in Hkey; contradiction ];
      intros Hin;
      repeat (apply elem_of_cons in Hin as [Hin | Hin]; [discriminate Hin |]);
      apply elem_of_nil in Hin; exact Hin. }
  destruct (typed_call_returns (mkCall action None (Some m1)) self1 I) as (d & o & Heq).
  cbn [call_action call_context call_legacy_context] in Heq.
  exists d. split; [rewrite Heq; reflexivity |].
  rewrite (evaluate_action_result_stateless action None (Some m2) self2 self1).
  replace (evaluate_action action None (Some m2) self1)
    with (evaluate_action action None (Some m1) self1)
    by (unfold evaluate_action, evaluate_action_with; rewrite Hctx; reflexivity).
  rewrite Heq. reflexivity.
Qed.

(** The theorem at a mapping with and without a ["user_id"]. *)
Lemma legacy_unread_keys_do_not_matter_witness :
  exists decision,
    fst (evaluate_action "share the report" None
           (Some (<["user_id" := PyStr "u-17"]> {[ "sensitive_data" := PyBool true ]}))
           Triumvirate_new) = Ok decision /\
    fst (evaluate_action "share the report" None
           (Some {[ "sensitive_data" := PyBool true ]})
           (incr_override_count Triumvirate_new)) = Ok decision.
Proof.
  apply (legacy_unread_keys_do_not_matter "share the report"
           (<["user_id" := PyStr "u-17"]> {[ "sensitive_data" := PyBool true ]})
           {[ "sensitive_data" := PyBool true ]}
           Triumvirate_new (incr_override_count Triumvirate_new)).
  intros k Hk. apply lookup_insert_ne. intros <-. apply Hk.
  unfold unread_keys. set_solver.
Defined.

(* ================================================================== *)
(** ** The data classes and their dict forms *)
(* ================================================================== *)

(** The constructor accepts a set of keywords when each names a field. *)
Lemma keywords_accepted (kwargs : gmap string PyVal) :
  forallb (fun k => bool_decide (k ∈ field_names)) (map fst (map_to_list kwargs)) = true
  <-> (forall k, is_Some (kwargs !! k) -> k ∈ field_names).
Proof.
  rewrite forallb_forall. split.
  - intros H k [v Hk]. refine (proj1 (bool_decide_eq_true _) (H k _)).
    apply in_map_iff. exists (k, v). split; [reflexivity |].
    apply list_elem_of_In, elem_of_map_to_list. exact Hk.
  - intros H k Hin. apply bool_decide_eq_true.
    apply in_map_iff in Hin as ([k' v] & <- & Hin). cbn.
    apply list_elem_of_In, elem_of_map_to_list in Hin.
    apply H. exists v. exact Hin.
Qed.

Lemma to_dict_keys (c : GovernanceContext) (k : string) :
  is_Some (GovernanceContext_to_dict c !! k) -> k ∈ field_names.
Proof.
  intros [v H]. unfold GovernanceContext_to_dict in H. unfold field_names.
  repeat (apply lookup_insert_Some in H as [[<- _] | [_ H]]; [set_solver |]).
  rewrite lookup_empty in H. discriminate H.
Qed.

Lemma from_dict_ignores_class (data : gmap string PyVal) (v : PyVal) :
  GovernanceContext_from_dict (<["__class__" := v]> data) =
  GovernanceContext_from_dict data.
Proof. unfold GovernanceContext_from_dict. rewrite delete_insert_eq. reflexivity. Qed.

(** X1: [from_dict] undoes [to_dict]: the dict form of a context has exactly
    the sixteen field keys, so the constructor accepts it and reads every
    field back; a ["__class__"] item added to the dict form is dropped. *)
Theorem context_dict_round_trip (c : GovernanceContext) :
  GovernanceContext_from_dict (GovernanceContext_to_dict c) = Ok c /\
  forall v : PyVal,
    GovernanceContext_from_dict (<["__class__" := v]> (GovernanceContext_to_dict c)) = Ok c.
Proof.
  assert (GovernanceContext_from_dict (GovernanceContext_to_dict c) = Ok c) as Hrt.
  { unfold GovernanceContext_from_dict.
    rewrite delete_id.
    2:{ destruct (GovernanceContext_to_dict c !! "__class__") eqn:Hc; [| reflexivity].
        exfalso. assert ("__class__" ∈ field_names) as Hin
          by (apply (to_dict_keys c); eauto).
        unfold field_names in Hin.
        repeat (apply elem_of_cons in Hin as [Hin | Hin]; [discriminate Hin |]).
        apply elem_of_nil in Hin. exact Hin. }
    unfold GovernanceContext_new.
    rewrite (proj2 (keywords_accepted _) (to_dict_keys c)).
    destruct c. unfold dict_get.
    f_equal; f_equal; read_field; reflexivity. }
  split; [exact Hrt |].
  intros v. rewrite from_dict_ignores_class. exact Hrt.
Qed.

Lemma GovernanceLevel_value_inj (l1 l2 : GovernanceLevel) :
  GovernanceLevel_value l1 = GovernanceLevel_value l2 -> l1 = l2.
Proof. destruct l1, l2; cbn; intros H; first [reflexivity | discriminate H]. Qed.

Lemma CouncilMember_value_inj (m1 m2 : CouncilMember) :
  CouncilMember_value m1 = CouncilMember_value m2 -> m1 = m2.
Proof. destruct m1, m2; cbn; intros H; first [reflexivity | discriminate H]. Qed.

(** X2: The dict form of a decision loses nothing: two decisions with the same
    dict form are the same decision (the level and the council member are
    recovered from their strings, and a missing member from [None]). *)
Theorem decision_to_dict_injective (d1 d2 : GovernanceDecision) :
  GovernanceDecision_to_dict d1 = GovernanceDecision_to_dict d2 <-> d1 = d2.
Proof.
  split; [| intros ->; reflexivity].
  intros H.
  assert (forall k, GovernanceDecision_to_dict d1 !! k = GovernanceDecision_to_dict d2 !! k)
    as Hk by (intros k; rewrite H; reflexivity).
  pose proof (Hk "allowed") as Ha. pose proof (Hk "reason") as Hr.
  pose proof (Hk "overrides") as Ho. pose proof (Hk "level") as Hl.
  pose proof (Hk "council_member") as Hm.
  clear H Hk. unfold GovernanceDecision_to_dict in *.
  repeat first [ rewrite lookup_insert_eq in Ha | rewrite lookup_insert_ne in Ha by discriminate ].
  repeat first [ rewrite lookup_insert_eq in Hr | rewrite lookup_insert_ne in Hr by discriminate ].
  repeat first [ rewrite lookup_insert_eq in Ho | rewrite lookup_insert_ne in Ho by discriminate ].
  repeat first [ rewrite lookup_insert_eq in Hl | rewrite lookup_insert_ne in Hl by discriminate ].
  repeat first [ rewrite lookup_insert_eq in Hm | rewrite lookup_insert_ne in Hm by discriminate ].
  destruct d1 as [a1 r1 o1 l1 m1], d2 as [a2 r2 o2 l2 m2]. cbn in *.
  injection Ha as ->. injection Hr as ->. injection Ho as ->.
  injection Hl as Hl. apply GovernanceLevel_value_inj in Hl as ->.
  f_equal.
  destruct m1 as [m1 |], m2 as [m2 |]; try discriminate Hm; [| reflexivity].
  injection Hm as Hm. apply CouncilMember_value_inj in Hm as ->. reflexivity.
Qed.

(** X3: The helper adds nothing to the constructor: called with any keywords it
    returns what the constructor returns on the same keywords, and raises
    [TypeError] on the same keywords (those that name no field). *)
Theorem create_governance_context_is_constructor (keywords : gmap string PyVal) :
  create_governance_context keywords = GovernanceContext_new keywords.
Proof.
  unfold create_governance_context, GovernanceContext_new.
  set (kw' := <["action_type" := dict_get keywords "action_type" (PyStr "general")]>
                (<["description" := dict_get keywords "description" (PyStr "")]>
                   (delete "action_type" (delete "description" keywords)))).
  assert (forall k, k <> "action_type" -> k <> "description" ->
                    kw' !! k = keywords !! k) as Hother.
  { intros k H1 H2. unfold kw'.
    rewrite !lookup_insert_ne, !lookup_delete_ne by congruence. reflexivity. }
  assert ((forall k, is_Some (kw' !! k) -> k ∈ field_names) <->
          (forall k, is_Some (keywords !! k) -> k ∈ field_names)) as Hiff.
  { split; intros H k Hk.
    - destruct (decide (k = "action_type")) as [-> | H1];
        [unfold field_names; set_solver |].
      destruct (decide (k = "description")) as [-> | H2];
        [unfold field_names; set_solver |].
      apply H. rewrite Hother by assumption. exact Hk.
    - destruct (decide (k = "action_type")) as [-> | H1];
        [unfold field_names; set_solver |].
      destruct (decide (k = "description")) as [-> | H2];
        [unfold field_names; set_solver |].
      apply H. rewrite <- Hother by assumption. exact Hk. }
  rewrite <- !keywords_accepted in Hiff.
  destruct (forallb _ (map fst (map_to_list kw'))) eqn:H1;
    destruct (forallb _ (map fst (map_to_list keywords))) eqn:H2;
    try reflexivity.
  - assert (kw' !! "action_type"
            = Some (dict_get keywords "action_type" (PyStr "general"))) as Hat
      by (unfold kw'; apply lookup_insert_eq).
    assert (kw' !! "description"
            = Some (dict_get keywords "description" (PyStr ""))) as Hdesc
      by (unfold kw'; rewrite lookup_insert_ne by discriminate; apply lookup_insert_eq).
    f_equal; f_equal; unfold dict_get;
      first [ rewrite Hat; reflexivity
            | rewrite Hdesc; reflexivity
            | rewrite Hother by discriminate; reflexivity ].
  - exfalso. pose proof (proj1 Hiff eq_refl). congruence.
  - exfalso. pose proof (proj2 Hiff eq_refl). congruence.
Qed.

(* ================================================================== *)
(** ** The order used to combine severities *)
(* ================================================================== *)

Lemma value_order_chain (a b c : GovernanceLevel) :
  String.ltb (GovernanceLevel_value a) (GovernanceLevel_value b) = false ->
  (String.ltb (GovernanceLevel_value b) (GovernanceLevel_value c) = false ->
   String.ltb (GovernanceLevel_value a) (GovernanceLevel_value c) = false) /\
  (String.ltb (GovernanceLevel_value c) (GovernanceLevel_value b) = true ->
   String.ltb (GovernanceLevel_value a) (GovernanceLevel_value c) = false).
Proof. destruct a, b, c; vm_compute; intros H; split; intros H'; congruence. Qed.

Lemma max_by_value_from_spec (rest : list GovernanceLevel) :
  forall best,
    (max_by_value_from best rest = best \/ In (max_by_value_from best rest) rest) /\
    String.ltb (GovernanceLevel_value (max_by_value_from best rest))
      (GovernanceLevel_value best) = false /\
    forall y, In y rest ->
      String.ltb (GovernanceLevel_value (max_by_value_from best rest))
        (GovernanceLevel_value y) = false.
Proof.
  induction rest as [| y rest IH]; intros best; cbn [max_by_value_from].
  - split; [left; reflexivity |]. split; [destruct best; reflexivity |].
    intros y Hy. destruct Hy.
  - destruct (String.ltb (GovernanceLevel_value best) (GovernanceLevel_value y)) eqn:Hlt.
    + destruct (IH y) as (Hin & Hbest & Hrest).
      split; [right; cbn; destruct Hin as [-> | Hin]; auto |].
      split; [exact (proj2 (value_order_chain _ _ _ Hbest) Hlt) |].
      intros z [<- | Hz]; [exact Hbest | exact (Hrest z Hz)].
    + destruct (IH best) as (Hin & Hbest & Hrest).
      split; [destruct Hin as [-> | Hin]; [left; reflexivity | right; cbn; auto] |].
      split; [exact Hbest |].
      intros z [<- | Hz]; [| exact (Hrest z Hz)].
      exact (proj1 (value_order_chain _ _ _ Hbest) Hlt).
Qed.

(** X4: The level kept when several blocks are combined is a level of the list
    that no other level of the list exceeds in the alphabetical order of the
    members' strings (critical, high, low, medium).  So MEDIUM is kept
    whenever it occurs, and CRITICAL only when every level is CRITICAL. *)
Theorem max_by_value_is_alphabetical (x : GovernanceLevel) (rest : list GovernanceLevel) :
  exists m,
    max_by_value (x :: rest) = Ok m /\
    In m (x :: rest) /\
    (forall y, In y (x :: rest) ->
       String.ltb (GovernanceLevel_value m) (GovernanceLevel_value y) = false) /\
    (In MEDIUM (x :: rest) -> m = MEDIUM) /\
    (m = CRITICAL -> forall y, In y (x :: rest) -> y = CRITICAL).
Proof.
  destruct (max_by_value_from_spec rest x) as (Hin & Hbest & Hrest).
  exists (max_by_value_from x rest).
  assert (forall y, In y (x :: rest) ->
            String.ltb (GovernanceLevel_value (max_by_value_from x rest))
              (GovernanceLevel_value y) = false) as Hall
    by (intros y [<- | Hy]; [exact Hbest | exact (Hrest y Hy)]).
  split; [reflexivity |].
  split; [cbn; destruct Hin as [-> | Hin]; auto |].
  split; [exact Hall |]. split.
  - intros Hm. specialize (Hall MEDIUM Hm).
    destruct (max_by_value_from x rest); vm_compute in Hall;
      first [reflexivity | discriminate Hall].
  - intros Hc y Hy. specialize (Hall y Hy). rewrite Hc in Hall.
    destruct y; vm_compute in Hall; first [reflexivity | discriminate Hall].
Qed.

(* ================================================================== *)
(** ** What a call of the class returns and records *)
(* ================================================================== *)

Lemma four_laws_member (action : string) (context : GovernanceContext) :
  council_member (_four_laws_check action context) = None /\
  reason (_four_laws_check action context) <> "" /\
  (overrides (_four_laws_check action context) = true ->
   allowed (_four_laws_check action context) = false).
Proof.
  unfold _four_laws_check. repeat case_match; cbn; repeat split; congruence.
Qed.

(** The cases of a call, with what the returned decision and its outcome
    have to do with each other. *)
Lemma evaluate_action_cases (action : string) (context : option GovernanceContext)
    (legacy_context : option (gmap string PyVal)) (self : Triumvirate) :
  (exists e,
      allowed (_four_laws_check action (resolve_context action context legacy_context))
        = true /\
      _galahad_vote action (resolve_context action context legacy_context) = Raise e /\
      evaluate_action action context legacy_context self
        = (Raise e, incr_total_evaluations self)) \/
  (exists decision outcome,
      evaluate_action action context legacy_context self
        = (Ok decision,
           logged action (resolve_context action context legacy_context)
             decision outcome self) /\
      council_member decision = None /\
      (overrides decision = true -> allowed decision = false) /\
      String.eqb outcome "approved" = allowed decision).
Proof.
  unfold evaluate_action, evaluate_action_with, bind, modify, ret, _log_decision, logged.
  set (ctx := resolve_context action context legacy_context).
  destruct (allowed (_four_laws_check action ctx)) eqn:Hfour; cbn [negb].
  - unfold galahad_method, cerberus_method, codex_method, pure_voter, lift.
    destruct (_galahad_vote action ctx) as [g | e]; [| left; eauto].
    destruct (cerberus_vote_returns action ctx) as [c ->].
    destruct (codex_vote_returns action ctx) as [x ->].
    right.
    destruct (List.filter is_override_block [g; c; x]) as [| o os] eqn:Ho;
      cbn [nonempty map max_by_value].
    + destruct (List.filter is_soft_block [g; c; x]) as [| b bs] eqn:Hb;
        cbn [nonempty map max_by_value].
      * eexists consensus_approval, "approved". cbn.
        repeat split; try reflexivity; discriminate.
      * eexists (mkDecision false _ false _ None), "soft_block". cbn.
        repeat split; try reflexivity; discriminate.
    + eexists (mkDecision false _ true _ None), "override_veto". cbn.
      repeat split; try reflexivity.
  - right. exists (_four_laws_check action ctx), "four_laws_block".
    destruct (four_laws_member action ctx) as (Hm & _ & Hov).
    split; [destruct (overrides (_four_laws_check action ctx)); reflexivity |].
    split; [exact Hm |]. split; [exact Hov |]. rewrite Hfour. reflexivity.
Qed.

(** Unfolds a call over council methods that do not touch [self]. *)
Local Ltac unfold_call :=
  unfold evaluate_action, evaluate_action_with, bind, modify, ret, _log_decision,
    logged, galahad_method, cerberus_method, codex_method, pure_voter, lift.

(** X5: Soft-block precedence: when the Four Laws check passes, the three
    council methods return their votes, no vote denies with [overrides] and
    at least one vote denies, the call returns a denial with
    [overrides = False] whose reason is the reasons of the denying votes in
    the order Galahad, Cerberus, Codex joined with ["; "]; it is logged under
    ["soft_block"] and the override counter does not move. *)
Theorem soft_block_precedence
    (galahad cerberus codex : string -> GovernanceContext -> result GovernanceDecision)
    (action : string) (context : option GovernanceContext)
    (legacy_context : option (gmap string PyVal)) (self : Triumvirate)
    (g c x : GovernanceDecision) :
  allowed (_four_laws_check action (resolve_context action context legacy_context)) = true ->
  galahad action (resolve_context action context legacy_context) = Ok g ->
  cerberus action (resolve_context action context legacy_context) = Ok c ->
  codex action (resolve_context action context legacy_context) = Ok x ->
  existsb is_override_block [g; c; x] = false ->
  existsb (fun v => negb (allowed v)) [g; c; x] = true ->
  exists lvl,
    max_by_value (map level (List.filter is_soft_block [g; c; x])) = Ok lvl /\
    evaluate_action_with (pure_voter galahad) (pure_voter cerberus) (pure_voter codex)
      action context legacy_context self =
      (Ok (mkDecision false
             (String.concat "; " (map reason (List.filter is_soft_block [g; c; x])))
             false lvl None),
       {| decision_log :=
            decision_log self ++
            [ {| entry_timestamp := logger_name;
                 entry_action := action;
                 entry_context :=
                   GovernanceContext_to_dict
                     (resolve_context action context legacy_context);
                 entry_decision :=
                   GovernanceDecision_to_dict
                     (mkDecision false
                        (String.concat "; "
                           (map reason (List.filter is_soft_block [g; c; x])))
                        false lvl None);
                 entry_outcome := "soft_block";
                 entry_total_evaluations := total_evaluations self + 1;
                 entry_override_count := override_count self |} ];
          override_count := override_count self;
          total_evaluations := total_evaluations self + 1 |}).
Proof.
  intros Hpass Hg Hc Hx Hno Hsome. unfold_call.
  rewrite Hpass. cbn [negb]. rewrite Hg, Hc, Hx.
  destruct g as [ga gr go gl gm], c as [ca cr co cl cm], x as [xa xr xo xl xm].
  unfold is_override_block, is_soft_block in *. cbn in Hno, Hsome.
  destruct ga, go; cbn in Hno, Hsome; try discriminate Hno;
    destruct ca, co; cbn in Hno, Hsome; try discriminate Hno;
    destruct xa, xo; cbn in Hno, Hsome;
    first [discriminate Hno | discriminate Hsome | cbn; eexists; split; reflexivity].
Qed.

(** The theorem at votes made by hand: Galahad approves, the two others
    block softly. *)
Lemma soft_block_precedence_witness :
  exists lvl,
    fst (evaluate_action_with
           (pure_voter (fun _ _ => Ok (mkDecision true "fine" false LOW (Some GALAHAD))))
           (pure_voter (fun _ _ => Ok (mkDecision false "too risky" false HIGH (Some CERBERUS))))
           (pure_voter (fun _ _ =>
              Ok (mkDecision false "inconsistent" false LOW (Some CODEX_DEUS_MAXIMUS))))
           "deploy" (Some default_context) None Triumvirate_new) =
    Ok (mkDecision false "too risky; inconsistent" false lvl None).
Proof.
  destruct (soft_block_precedence
              (fun _ _ => Ok (mkDecision true "fine" false LOW (Some GALAHAD)))
              (fun _ _ => Ok (mkDecision false "too risky" false HIGH (Some CERBERUS)))
              (fun _ _ => Ok (mkDecision false "inconsistent" false LOW
                                (Some CODEX_DEUS_MAXIMUS)))
              "deploy" (Some default_context) None Triumvirate_new
              _ _ _ eq_refl eq_refl eq_refl eq_refl eq_refl eq_refl) as (lvl & _ & Heq).
  exists lvl. rewrite Heq. reflexivity.
Defined.

(** X6: Approval is unanimity: when the three council methods return votes, the
    call returns a decision, and that decision allows the action exactly
    when the Four Laws check and all three votes allow it; the decision is
    then the consensus approval (LOW, no override), logged under
    ["approved"]. *)
Theorem approval_iff_unanimous
    (galahad cerberus codex : string -> GovernanceContext -> result GovernanceDecision)
    (action : string) (context : option GovernanceContext)
    (legacy_context : option (gmap string PyVal)) (self : Triumvirate)
    (g c x : GovernanceDecision) :
  galahad action (resolve_context action context legacy_context) = Ok g ->
  cerberus action (resolve_context action context legacy_context) = Ok c ->
  codex action (resolve_context action context legacy_context) = Ok x ->
  exists decision self',
    evaluate_action_with (pure_voter galahad) (pure_voter cerberus) (pure_voter codex)
      action context legacy_context self = (Ok decision, self') /\
    (allowed decision = true <->
       allowed (_four_laws_check action (resolve_context action context legacy_context))
         = true /\
       allowed g = true /\ allowed c = true /\ allowed x = true) /\
    (allowed decision = true ->
       decision = consensus_approval /\
       self' = logged action (resolve_context action context legacy_context)
                 consensus_approval "approved" self).
Proof.
  intros Hg Hc Hx. unfold_call.
  destruct (allowed (_four_laws_check action _)) eqn:Hpass; cbn [negb].
  - rewrite Hg, Hc, Hx.
    destruct g as [ga gr go gl gm], c as [ca cr co cl cm], x as [xa xr xo xl xm].
    unfold is_override_block, is_soft_block.
    destruct ga, go, ca, co, xa, xo; cbn;
      eexists _, _; (split; [reflexivity |]); cbn;
      (split; [intuition congruence |]);
      first [ discriminate | intros _; split; reflexivity ].
  - destruct (overrides (_four_laws_check action _));
      (eexists _, _; split; [reflexivity |]); rewrite Hpass;
      (split; [intuition congruence | discriminate]).
Qed.

(** The theorem at the default context with the methods of the class. *)
Lemma approval_iff_unanimous_witness :
  exists decision self',
    evaluate_action "say hello" (Some default_context) None Triumvirate_new
      = (Ok decision, self') /\
    allowed decision = true.
Proof.
  destruct (approval_iff_unanimous _galahad_vote _cerberus_vote _codex_vote
              "say hello" (Some default_context) None Triumvirate_new
              _ _ _ eq_refl eq_refl eq_refl) as (d & s' & Heq & Hiff & _).
  exists d, s'. split; [exact Heq |].
  apply Hiff. repeat split; reflexivity.
Defined.

(** X7: Absence of evidence never blocks: when none of the nine risk,
    consistency and impact flags of the evaluated context is true, the call
    returns the consensus approval and logs it under ["approved"], whatever
    the clearance flags and [relationship_health] hold (a health that is not
    a number is then never compared). *)
Theorem no_flag_means_approval (action : string) (context : option GovernanceContext)
    (legacy_context : option (gmap string PyVal)) (self : Triumvirate) :
  no_flag_raised (resolve_context action context legacy_context) ->
  evaluate_action action context legacy_context self =
    (Ok consensus_approval,
     logged action (resolve_context action context legacy_context)
       consensus_approval "approved" self).
Proof.
  intros (H1 & H2 & H3 & H4 & H5 & H6 & H7 & H8 & H9).
  unfold_call. unfold _four_laws_check, _galahad_vote, _cerberus_vote, _codex_vote.
  rewrite H1, H2, H3, H4, H5, H6, H7, H8, H9. reflexivity.
Qed.

(** The theorem at a context without consent, clarification or safeguards
    and with a health that is not a number. *)
Lemma no_flag_means_approval_witness :
  fst (evaluate_action "read the clock"
         (Some (mkContext (PyStr "general") (PyStr "")
                  (PyBool false) (PyBool false) (PyBool false) (PyBool false)
                  (PyBool false) (PyBool false) (PyBool false)
                  (PyBool false) (PyBool false)
                  (PyBool false) (PyBool false) (PyBool false)
                  PyNone PyNone))
         None Triumvirate_new) = Ok consensus_approval.
Proof.
  rewrite no_flag_means_approval; [reflexivity |].
  repeat split; reflexivity.
Defined.

(** X8: Abuse is always refused at the first check: when [is_abusive] of the
    evaluated context is true the call returns the CRITICAL, overriding
    Four Laws denial, logs it under ["four_laws_block"] and raises the
    override counter, whatever the other fields hold and whatever the
    council methods would do. *)
Theorem abuse_is_always_blocked (G C X : Voter) (action : string)
    (context : option GovernanceContext) (legacy_context : option (gmap string PyVal))
    (self : Triumvirate) :
  truthy (is_abusive (resolve_context action context legacy_context)) = true ->
  evaluate_action_with G C X action context legacy_context self =
    (Ok (mkDecision false
           "Four Laws violation: Action would enable or participate in user harm/abuse"
           true CRITICAL None),
     {| decision_log :=
          decision_log self ++
          [ {| entry_timestamp := logger_name;
               entry_action := action;
               entry_context :=
                 GovernanceContext_to_dict (resolve_context action context legacy_context);
               entry_decision :=
                 GovernanceDecision_to_dict
                   (mkDecision false
                      "Four Laws violation: Action would enable or participate in user harm/abuse"
                      true CRITICAL None);
               entry_outcome := "four_laws_block";
               entry_total_evaluations := total_evaluations self + 1;
               entry_override_count := override_count self |} ];
        override_count := override_count self + 1;
        total_evaluations := total_evaluations self + 1 |}).
Proof.
  intros Habuse.
  unfold evaluate_action_with, bind, modify, ret, _log_decision, _four_laws_check.
  rewrite Habuse. reflexivity.
Qed.

(** The theorem at a legacy mapping whose [is_abusive] is the string
    ["yes"], with council methods that would raise. *)
Lemma abuse_is_always_blocked_witness :
  override_count
    (snd (evaluate_action_with
            (pure_voter (faulty_vote "g")) (pure_voter (faulty_vote "c"))
            (pure_voter (faulty_vote "x"))
            "mock the user" None (Some {[ "is_abusive" := PyStr "yes" ]})
            Triumvirate_new)) = 1.
Proof.
  rewrite (abuse_is_always_blocked
             (pure_voter (faulty_vote "g")) (pure_voter (faulty_vote "c"))
             (pure_voter (faulty_vote "x"))
             "mock the user" None (Some {[ "is_abusive" := PyStr "yes" ]})
             Triumvirate_new);
    [reflexivity | vm_compute; reflexivity].
Defined.

(** X9: Overriding decisions of the class: a returned decision with
    [overrides = True] denies, and its level is CRITICAL when the context is
    abusive and HIGH otherwise; MEDIUM and LOW decisions can always be
    appealed. *)
Theorem overriding_decisions_are_critical_or_high (action : string)
    (context : option GovernanceContext) (legacy_context : option (gmap string PyVal))
    (self self' : Triumvirate) (decision : GovernanceDecision) :
  evaluate_action action context legacy_context self = (Ok decision, self') ->
  overrides decision = true ->
  allowed decision = false /\
  level decision =
    if truthy (is_abusive (resolve_context action context legacy_context))
    then CRITICAL else HIGH.
Proof.
  unfold_call.
  set (ctx := resolve_context action context legacy_context).
  destruct (allowed (_four_laws_check action ctx)) eqn:Hpass; cbn [negb].
  - destruct (override_block_is_cerberus_high action ctx Hpass) as (Hg & Hx & Hc).
    assert (truthy (is_abusive ctx) = false) as ->.
    { unfold _four_laws_check in Hpass.
      destruct (truthy (is_abusive ctx)); [discriminate Hpass | reflexivity]. }
    destruct (_galahad_vote action ctx) as [g | e]; [| discriminate].
    destruct (_cerberus_vote action ctx) as [c | e]; [| discriminate].
    destruct (_codex_vote action ctx) as [x | e]; [| discriminate].
    set (soft := List.filter is_soft_block [g; c; x]).
    cbn [List.filter]. rewrite (Hg g eq_refl), (Hx x eq_refl).
    destruct (is_override_block c) eqn:Hoc; cbn [nonempty map max_by_value].
    + rewrite (Hc c eq_refl Hoc). cbn. intros Heq _.
      injection Heq as <- _. split; reflexivity.
    + destruct soft; cbn;
        intros Heq Hov; injection Heq as <- _; discriminate Hov.
  - intros Heq Hov.
    assert (decision = _four_laws_check action ctx) as ->
      by (destruct (overrides (_four_laws_check action ctx)); congruence).
    split; [exact Hpass |]. clear Heq Hpass.
    unfold _four_laws_check in *.
    destruct (truthy (is_abusive ctx)); [reflexivity |].
    repeat case_match; first [reflexivity | discriminate Hov].
Qed.

(** The theorem at scenario 3. *)
Lemma overriding_decisions_are_critical_or_high_witness :
  fst (evaluate_action "export records" (Some scenario_3) None Triumvirate_new) =
    Ok (mkDecision false
          "CERBERUS: Sensitive data handling requires proper security safeguards"
          true HIGH None) /\
  allowed (mkDecision false
             "CERBERUS: Sensitive data handling requires proper security safeguards"
             true HIGH None) = false /\
  level (mkDecision false
           "CERBERUS: Sensitive data handling requires proper security safeguards"
           true HIGH None) = HIGH.
Proof.
  split; [reflexivity |].
  apply (overriding_decisions_are_critical_or_high "export records"
           (Some scenario_3) None Triumvirate_new
           (snd (evaluate_action "export records" (Some scenario_3) None Triumvirate_new))
           (mkDecision false
              "CERBERUS: Sensitive data handling requires proper security safeguards"
              true HIGH None));
    reflexivity.
Defined.

Lemma evaluators_read_facts_only (a1 a2 : string) (c1 c2 : GovernanceContext) :
  same_facts c1 c2 ->
  _four_laws_check a1 c1 = _four_laws_check a2 c2 /\
  _galahad_vote a1 c1 = _galahad_vote a2 c2 /\
  _cerberus_vote a1 c1 = _cerberus_vote a2 c2 /\
  _codex_vote a1 c1 = _codex_vote a2 c2.
Proof.
  intros (H1 & H2 & H3 & H4 & H5 & H6 & H7 & H8 & H9 & H10 & H11 & H12 & H13).
  unfold _four_laws_check, _galahad_vote, _cerberus_vote, _codex_vote.
  rewrite H1, H2, H3, H4, H5, H6, H7, H8, H9, H10, H11, H12, H13.
  repeat split; reflexivity.
Qed.

Lemma facts_decide_result (a1 a2 : string) (c1 c2 : GovernanceContext)
    (l1 l2 : option (gmap string PyVal)) (self1 self2 : Triumvirate) :
  same_facts c1 c2 ->
  fst (evaluate_action a1 (Some c1) l1 self1) =
  fst (evaluate_action a2 (Some c2) l2 self2).
Proof.
  intros Hsame.
  destruct (evaluators_read_facts_only a1 a2 c1 c2 Hsame) as (Hf & Hg & Hc & Hx).
  unfold_call. cbn [resolve_context]. rewrite Hf, Hg, Hc, Hx.
  destruct (allowed (_four_laws_check a2 c2)); cbn [negb].
  - destruct (_galahad_vote a2 c2) as [g | e]; [| reflexivity].
    destruct (_cerberus_vote a2 c2) as [c | e]; [| reflexivity].
    destruct (_codex_vote a2 c2) as [x | e]; [| reflexivity].
    destruct (List.filter is_override_block [g; c; x]);
      cbn [nonempty map max_by_value]; [| reflexivity].
    destruct (List.filter is_soft_block [g; c; x]); reflexivity.
  - destruct (overrides (_four_laws_check a2 c2)); reflexivity.
Qed.

(** X10: What a call returns or raises depends on the truth values of the twelve
    flags and on [relationship_health] alone: two calls on contexts that
    agree on these give the same result, whatever the two actions, the two
    objects' states and the other fields ([action_type], [description],
    [user_id]) are; a flag given as [1] or as a non-empty string counts as
    [True]. *)
Theorem result_depends_on_facts_only (a1 a2 : string) (c1 c2 : GovernanceContext)
    (l1 l2 : option (gmap string PyVal)) (self1 self2 : Triumvirate) :
  same_facts c1 c2 ->
  fst (evaluate_action a1 (Some c1) l1 self1) =
  fst (evaluate_action a2 (Some c2) l2 self2).
Proof. apply facts_decide_result. Qed.

(** The theorem at two contexts that spell the same facts differently. *)
Lemma result_depends_on_facts_only_witness :
  fst (evaluate_action "wipe the disk"
         (Some (mkContext (PyStr "storage") (PyStr "wipe")
                  (PyInt 0) (PyStr "yes") (PyBool false) PyNone
                  (PyInt 1) (PyBool true) (PyStr "given")
                  (PyBool false) (PyBool false)
                  (PyBool false) (PyInt 7) (PyBool false)
                  (PyStr "u-1") (PyFloat 0.7%float)))
         None Triumvirate_new) =
  fst (evaluate_action "format the volume"
         (Some (mkContext (PyStr "general") (PyStr "")
                  (PyBool false) (PyBool true) (PyBool false) (PyBool false)
                  (PyBool true) (PyBool true) (PyBool true)
                  (PyBool false) (PyBool false)
                  (PyBool false) (PyBool true) (PyBool false)
                  PyNone (PyFloat 0.7%float)))
         None (incr_total_evaluations Triumvirate_new)).
Proof.
  apply result_depends_on_facts_only.
  repeat split; reflexivity.
Defined.

(** X11: The returned decision is the logged one: a call that returns appends
    exactly one entry, which holds the action, the dict forms of the
    evaluated context and of the returned decision, the new evaluation
    count and the override count from before the call; the entry's outcome
    is ["approved"] exactly when the decision allows; and the override
    counter rises by one exactly when the decision overrides. *)
Theorem returned_decision_is_logged (action : string)
    (context : option GovernanceContext) (legacy_context : option (gmap string PyVal))
    (self self' : Triumvirate) (decision : GovernanceDecision) :
  evaluate_action action context legacy_context self = (Ok decision, self') ->
  exists entry,
    decision_log self' = decision_log self ++ [entry] /\
    entry_action entry = action /\
    entry_context entry =
      GovernanceContext_to_dict (resolve_context action context legacy_context) /\
    entry_decision entry = GovernanceDecision_to_dict decision /\
    (entry_outcome entry = "approved" <-> allowed decision = true) /\
    entry_total_evaluations entry = total_evaluations self + 1 /\
    entry_override_count entry = override_count self /\
    total_evaluations self' = total_evaluations self + 1 /\
    override_count self' =
      if overrides decision then override_count self + 1 else override_count self.
Proof.
  intros Heq.
  destruct (evaluate_action_cases action context legacy_context self)
    as [(e & _ & _ & Hr) | (d & o & Hr & _ & _ & Ho)]; rewrite Hr in Heq.
  - discriminate Heq.
  - injection Heq as <- <-. eexists. unfold logged. cbn.
    repeat split; try reflexivity.
    + cbn. intros Hout. rewrite <- Ho, Hout. reflexivity.
    + cbn. intros Ha. rewrite Ha in Ho. apply String.eqb_eq. exact Ho.
Qed.

(** The theorem at scenario 4 on a fresh object. *)
Lemma returned_decision_is_logged_witness :
  exists entry,
    decision_log (snd (evaluate_action "rename" (Some scenario_4) None Triumvirate_new)) =
      [entry] /\
    entry_decision entry =
      GovernanceDecision_to_dict
        (mkDecision false
           "CODEX: Action contradicts prior commitments - requires resolution"
           false MEDIUM None).
Proof.
  destruct (returned_decision_is_logged "rename" (Some scenario_4) None Triumvirate_new
              (snd (evaluate_action "rename" (Some scenario_4) None Triumvirate_new))
              (mkDecision false
                 "CODEX: Action contradicts prior commitments - requires resolution"
                 false MEDIUM None) eq_refl)
    as (entry & Hlog & _ & _ & Hd & _).
  exists entry. split; [exact Hlog | exact Hd].
Defined.

(** X12: The only failure of the class: a call raises exactly when the Four
    Laws check passes, [affects_relationships] is true and
    [relationship_health] is not a number (it is [None] or a string); the
    exception is then [TypeError], the evaluation has been counted and
    nothing else of the object has changed. *)
Theorem call_raises_iff_health_unordered (action : string)
    (context : option GovernanceContext) (legacy_context : option (gmap string PyVal))
    (self : Triumvirate) :
  (is_ok (fst (evaluate_action action context legacy_context self)) = false <->
     allowed (_four_laws_check action (resolve_context action context legacy_context))
       = true /\
     truthy (affects_relationships (resolve_context action context legacy_context))
       = true /\
     is_number (relationship_health (resolve_context action context legacy_context))
       = false) /\
  (is_ok (fst (evaluate_action action context legacy_context self)) = false ->
     evaluate_action action context legacy_context self
       = (Raise TypeError, incr_total_evaluations self)).
Proof.
  set (ctx := resolve_context action context legacy_context).
  assert (forall e, _galahad_vote action ctx = Raise e ->
            e = TypeError /\ truthy (is_abusive ctx) = false /\
            truthy (affects_relationships ctx) = true /\
            is_number (relationship_health ctx) = false) as Hraise.
  { intros e. unfold _galahad_vote.
    destruct (truthy (is_abusive ctx)); [discriminate |].
    destruct (truthy (affects_relationships ctx)); [| repeat case_match; discriminate].
    destruct (relationship_health ctx); cbn [lt_0_3];
      repeat case_match; try discriminate; intros [= <-]; repeat split. }
  assert (allowed (_four_laws_check action ctx) = true ->
          truthy (affects_relationships ctx) = true ->
          is_number (relationship_health ctx) = false ->
          _galahad_vote action ctx = Raise TypeError) as Hconv.
  { intros Hpass Hrel Hnum. unfold _galahad_vote.
    unfold _four_laws_check in Hpass.
    destruct (truthy (is_abusive ctx)); [discriminate Hpass |].
    rewrite Hrel. destruct (relationship_health ctx); try discriminate Hnum; reflexivity. }
  destruct (evaluate_action_cases action context legacy_context self)
    as [(e & Hpass & Hg & Hr) | (d & o & Hr & _)]; fold ctx in Hr; rewrite Hr; cbn [fst is_ok].
  - fold ctx in Hpass, Hg. destruct (Hraise e Hg) as (-> & _ & Hrel & Hnum).
    split; [| reflexivity]. split; [intros _; repeat split; assumption | reflexivity].
  - split; [| discriminate]. split; [discriminate |].
    intros (Hpass & Hrel & Hnum). exfalso.
    pose proof (Hconv Hpass Hrel Hnum) as Hg.
    revert Hr. unfold_call. fold ctx. rewrite Hpass. cbn [negb]. rewrite Hg.
    discriminate.
Qed.

(* ================================================================== *)
(** ** Counters, numbering and statistics over any sequence of calls *)
(* ================================================================== *)

Lemma fold_left_add_from (l : list Z) (a : Z) :
  fold_left Z.add l a = a + fold_left Z.add l 0.
Proof.
  revert a. induction l as [| x l IH]; intros a; cbn [fold_left]; [lia |].
  rewrite (IH (a + x)), (IH (0 + x)). lia.
Qed.

Lemma approval_count_app (l1 l2 : list LogEntry) :
  approval_count (l1 ++ l2) = approval_count l1 + approval_count l2.
Proof.
  unfold approval_count.
  rewrite List.filter_app, map_app, fold_left_app.
  apply fold_left_add_from.
Qed.

(** One call keeps the numbering of the log. *)
Lemma ledger_ordered_step (action : string) (context : option GovernanceContext)
    (legacy_context : option (gmap string PyVal)) (self : Triumvirate) :
  ledger_ordered self ->
  ledger_ordered (snd (evaluate_action action context legacy_context self)).
Proof.
  intros (Htot & Hov & Hrange & Horder).
  destruct (evaluate_action_cases action context legacy_context self)
    as [(e & _ & _ & ->) | (d & o & -> & _)]; cbn [snd].
  - unfold ledger_ordered, incr_total_evaluations.
    cbn [decision_log override_count total_evaluations].
    split; [lia |]. split; [exact Hov |]. split.
    + intros entry Hin. destruct (Hrange entry Hin) as [Ht Ho].
      split; [lia | exact Ho].
    + exact Horder.
  - assert (override_count self <=
            (if overrides d then override_count self + 1 else override_count self))
      as Hmono by (destruct (overrides d); lia).
    unfold ledger_ordered, logged.
    cbn [decision_log override_count total_evaluations].
    set (oc' := if overrides d then override_count self + 1 else override_count self)
      in *.
    split; [lia |]. split; [lia |]. split.
    + intros entry Hin. apply in_app_or in Hin as [Hin | [<- | []]].
      * destruct (Hrange entry Hin). lia.
      * cbn [entry_total_evaluations entry_override_count]. lia.
    + intros i j ei ej Hij Hi Hj.
      destruct (decide (j < length (decision_log self))%nat) as [Hlt | Hge].
      * rewrite lookup_app_l in Hi by lia. rewrite lookup_app_l in Hj by lia.
        exact (Horder i j ei ej Hij Hi Hj).
      * pose proof (lookup_lt_Some _ _ _ Hj) as Hjlen.
        rewrite length_app in Hjlen. cbn in Hjlen.
        assert (j = length (decision_log self)) as -> by lia.
        rewrite lookup_app_l in Hi by lia.
        rewrite list_lookup_middle in Hj by reflexivity.
        injection Hj as <-.
        cbn [entry_total_evaluations entry_override_count].
        assert (In ei (decision_log self)) as Hin
          by (apply list_elem_of_In, list_elem_of_lookup; eauto).
        destruct (Hrange ei Hin). lia.
Qed.

Lemma ledger_ordered_run (calls : list Call) :
  forall self,
    ledger_ordered self -> ledger_ordered (snd (run_calls calls self)).
Proof.
  induction calls as [| c calls IH]; intros self Hord; [exact Hord |].
  rewrite run_calls_cons. cbn [snd].
  apply IH, ledger_ordered_step, Hord.
Qed.

(** X13: Numbering of the log, also across calls that raised: after any sequence
    of calls on a fresh object the evaluation counts recorded in the log
    strictly increase along the log and stay between 1 and the object's
    count, and the recorded override counts never decrease and stay between
    0 and the object's count. *)
Theorem ledger_is_ordered (calls : list Call) :
  ledger_ordered (snd (run_calls calls Triumvirate_new)).
Proof.
  apply ledger_ordered_run.
  unfold ledger_ordered, Triumvirate_new.
  cbn [decision_log override_count total_evaluations].
  split; [lia |]. split; [lia |]. split.
  - intros entry [].
  - intros i j ei ej _ Hi. destruct i; discriminate Hi.
Qed.

Lemma count_returned_cons (p : GovernanceDecision -> bool)
    (r : result GovernanceDecision) (rs : list (result GovernanceDecision)) :
  count_returned p (r :: rs) =
    ((if match r with Ok d => p d | Raise _ => false end then 1 else 0)
     + count_returned p rs)%nat.
Proof.
  unfold count_returned. cbn [List.filter].
  destruct (match r with Ok d => p d | Raise _ => false end); reflexivity.
Qed.

(** From any state: how a sequence of calls moves the counters, the log
    and the number of approvals in the log. *)
Lemma run_calls_counts (calls : list Call) :
  forall self,
    total_evaluations (snd (run_calls calls self)) =
      total_evaluations self + Z.of_nat (length calls) /\
    override_count (snd (run_calls calls self)) =
      override_count self + Z.of_nat (count_returned overrides (fst (run_calls calls self))) /\
    length (decision_log (snd (run_calls calls self))) =
      (length (decision_log self)
       + count_returned (fun _ => true) (fst (run_calls calls self)))%nat /\
    approval_count (decision_log (snd (run_calls calls self))) =
      approval_count (decision_log self)
      + Z.of_nat (count_returned allowed (fst (run_calls calls self))) /\
    (count_returned overrides (fst (run_calls calls self))
     + count_returned allowed (fst (run_calls calls self))
     <= count_returned (fun _ => true) (fst (run_calls calls self)))%nat /\
    (count_returned (fun _ => true) (fst (run_calls calls self)) <= length calls)%nat.
Proof.
  induction calls as [| c calls IH]; intros self.
  - cbn. repeat split; lia.
  - rewrite run_calls_cons. cbn [fst snd length]. rewrite !count_returned_cons.
    destruct (evaluate_action_cases (call_action c) (call_context c)
                (call_legacy_context c) self)
      as [(e & _ & _ & ->) | (d & o & -> & _ & Hov & Ho)]; cbn [fst snd].
    + destruct (IH (incr_total_evaluations self)) as (Ht & Hc & Hl & Ha & Hle & Hn).
      rewrite Ht, Hc, Hl, Ha.
      change (total_evaluations (incr_total_evaluations self))
        with (total_evaluations self + 1).
      change (override_count (incr_total_evaluations self)) with (override_count self).
      change (decision_log (incr_total_evaluations self)) with (decision_log self).
      repeat split; lia.
    + set (entry := mkEntry logger_name (call_action c)
                      (GovernanceContext_to_dict
                         (resolve_context (call_action c) (call_context c)
                            (call_legacy_context c)))
                      (GovernanceDecision_to_dict d) o
                      (total_evaluations self + 1) (override_count self)).
      set (s1 := logged (call_action c)
                   (resolve_context (call_action c) (call_context c)
                      (call_legacy_context c)) d o self).
      destruct (IH s1) as (Ht & Hc & Hl & Ha & Hle & Hn).
      rewrite Ht, Hc, Hl, Ha.
      change (total_evaluations s1) with (total_evaluations self + 1).
      change (override_count s1)
        with (if overrides d then override_count self + 1 else override_count self).
      change (decision_log s1) with (decision_log self ++ [entry]).
      rewrite approval_count_app, length_app.
      assert (approval_count [entry] = if allowed d then 1 else 0) as ->.
      { unfold approval_count. cbn [List.filter entry entry_outcome].
        rewrite Ho. destruct (allowed d); reflexivity. }
      cbn [length].
      destruct (overrides d) eqn:Hod; [rewrite (Hov eq_refl) |];
        [| destruct (allowed d)]; repeat split; lia.
Qed.

(** X14: Counters over any sequence of calls on a fresh object, raising calls
    included: [total_evaluations] is the number of calls made, the log has
    one entry per call that returned, and [override_count] is the number of
    returned decisions with [overrides = True]. *)
Theorem counters_count_calls (calls : list Call) :
  total_evaluations (snd (run_calls calls Triumvirate_new)) = Z.of_nat (length calls) /\
  length (decision_log (snd (run_calls calls Triumvirate_new))) =
    count_returned (fun _ => true) (fst (run_calls calls Triumvirate_new)) /\
  override_count (snd (run_calls calls Triumvirate_new)) =
    Z.of_nat (count_returned overrides (fst (run_calls calls Triumvirate_new))) /\
  (length (decision_log (snd (run_calls calls Triumvirate_new))) <= length calls)%nat.
Proof.
  destruct (run_calls_counts calls Triumvirate_new) as (Ht & Hc & Hl & _ & _ & Hn).
  cbn [Triumvirate_new decision_log override_count total_evaluations length] in *.
  rewrite Ht, Hc, Hl. repeat split; lia.
Qed.

(** X15: Statistics over any sequence of calls on a fresh object: [approvals] is
    the number of calls that returned an allowing decision and [blocks] is
    every other call, so calls that raised count as blocks; both lie between
    0 and [total_evaluations], they add up to it, and [override_count] never
    exceeds [blocks]. *)
Theorem statistics_count_calls (calls : list Call) :
  stat_total_evaluations (get_statistics (snd (run_calls calls Triumvirate_new)))
    = Z.of_nat (length calls) /\
  stat_approvals (get_statistics (snd (run_calls calls Triumvirate_new)))
    = Z.of_nat (count_returned allowed (fst (run_calls calls Triumvirate_new))) /\
  stat_blocks (get_statistics (snd (run_calls calls Triumvirate_new)))
    = Z.of_nat (length calls)
      - Z.of_nat (count_returned allowed (fst (run_calls calls Triumvirate_new))) /\
  0 <= stat_approvals (get_statistics (snd (run_calls calls Triumvirate_new)))
    <= Z.of_nat (length calls) /\
  0 <= stat_override_count (get_statistics (snd (run_calls calls Triumvirate_new)))
    <= stat_blocks (get_statistics (snd (run_calls calls Triumvirate_new))).
Proof.
  destruct (run_calls_counts calls Triumvirate_new) as (Ht & Hc & Hl & Ha & Hle & Hn).
  unfold get_statistics.
  cbn [stat_total_evaluations stat_approvals stat_blocks stat_override_count].
  rewrite Ht, Hc, Ha.
  cbn [Triumvirate_new decision_log override_count total_evaluations].
  change (approval_count []) with 0.
  repeat split; lia.
Qed.

(* ================================================================== *)
(** ** Recent decisions, every limit *)
(* ================================================================== *)

(** X16: A negative limit skips instead of selecting: [get_recent_decisions(-k)]
    is the log without its first [k] entries (empty when [k] is at least the
    length of the log). *)
Theorem get_recent_decisions_negative (self : Triumvirate) (limit : Z) :
  limit < 0 ->
  get_recent_decisions self limit = drop (Z.to_nat (- limit)) (decision_log self).
Proof.
  intros Hl. unfold get_recent_decisions, slice_from.
  destruct (Z.ltb_spec (- limit) 0) as [H | _]; [lia |].
  destruct (Z.le_gt_cases (- limit) (Z.of_nat (length (decision_log self)))) as [Hle | Hgt].
  - rewrite Z.min_l by exact Hle. reflexivity.
  - rewrite Z.min_r by lia. rewrite Nat2Z.id.
    rewrite !drop_ge by lia. reflexivity.
Qed.

(** The theorem on the log of the five scenarios with limit -2. *)
Lemma get_recent_decisions_negative_witness :
  map entry_outcome
    (get_recent_decisions
       (snd (run_calls (five_scenarios "s1" "s2" "s3" "s4" "s5") Triumvirate_new)) (-2)) =
  [ "override_veto"; "soft_block"; "approved" ].
Proof.
  rewrite get_recent_decisions_negative; [reflexivity | lia].
Defined.

(** The positive case on the log of the five scenarios with limit 2. *)
Lemma get_recent_decisions_positive_witness :
  length
    (get_recent_decisions
       (snd (run_calls (five_scenarios "s1" "s2" "s3" "s4" "s5") Triumvirate_new)) 2) =
  2%nat.
Proof.
  rewrite (proj2 (get_recent_decisions_positive
                    (snd (run_calls (five_scenarios "s1" "s2" "s3" "s4" "s5")
                            Triumvirate_new)) 2 ltac:(lia))).
  reflexivity.
Defined.

(* ================================================================== *)
(** ** The shape of returned decisions *)
(* ================================================================== *)

Lemma concat_nonempty (sep r : string) (rs : list string) :
  r <> "" -> String.concat sep (r :: rs) <> "".
Proof.
  intros Hr. destruct r as [| a r]; [congruence |].
  destruct rs; cbn; discriminate.
Qed.

Lemma vote_reasons_nonempty (action : string) (context : GovernanceContext)
    (v : GovernanceDecision) :
  _galahad_vote action context = Ok v \/
  _cerberus_vote action context = Ok v \/
  _codex_vote action context = Ok v ->
  reason v <> "".
Proof.
  unfold _galahad_vote, _cerberus_vote, _codex_vote.
  intros [H | [H | H]]; repeat case_match; try discriminate H;
    injection H as <-; discriminate.
Qed.

(** X18: Every decision the class returns is a decision of the pipeline, not of
    one member: its [council_member] is [None], also when a single council
    vote caused the denial; and its reason is never empty. *)
Theorem returned_decision_shape (action : string)
    (context : option GovernanceContext) (legacy_context : option (gmap string PyVal))
    (self self' : Triumvirate) (decision : GovernanceDecision) :
  evaluate_action action context legacy_context self = (Ok decision, self') ->
  council_member decision = None /\ reason decision <> "".
Proof.
  intros Heq. split.
  - destruct (evaluate_action_cases action context legacy_context self)
      as [(e & _ & _ & Hr) | (d & o & Hr & Hm & _)]; rewrite Hr in Heq.
    + discriminate Heq.
    + injection Heq as <- _. exact Hm.
  - revert Heq. unfold_call.
    set (ctx := resolve_context action context legacy_context).
    destruct (allowed (_four_laws_check action ctx)) eqn:Hpass; cbn [negb].
    + destruct (_galahad_vote action ctx) as [g | e] eqn:Hg; [| discriminate].
      destruct (_cerberus_vote action ctx) as [c | e] eqn:Hc; [| discriminate].
      destruct (_codex_vote action ctx) as [x | e] eqn:Hx; [| discriminate].
      assert (forall (f : GovernanceDecision -> bool) v,
                In v (List.filter f [g; c; x]) -> reason v <> "") as Hvotes.
      { intros f v Hin. apply filter_In in Hin as [Hin _].
        apply (vote_reasons_nonempty action ctx).
        destruct Hin as [<- | [<- | [<- | []]]]; auto. }
      destruct (List.filter is_override_block [g; c; x]) as [| o os] eqn:Ho;
        cbn [nonempty map max_by_value].
      * destruct (List.filter is_soft_block [g; c; x]) as [| b bs] eqn:Hb;
          cbn [nonempty map max_by_value]; intros Heq; injection Heq as <- _.
        -- discriminate.
        -- apply concat_nonempty, (Hvotes is_soft_block). rewrite Hb. left. reflexivity.
      * intros Heq. injection Heq as <- _.
        apply concat_nonempty, (Hvotes is_override_block). rewrite Ho. left. reflexivity.
    + intros Heq.
      assert (decision = _four_laws_check action ctx) as ->
        by (destruct (overrides (_four_laws_check action ctx)); congruence).
      apply four_laws_member.
Qed.

(** The theorem at scenario 3, where Cerberus alone causes the denial. *)
Lemma returned_decision_shape_witness :
  council_member
    (mkDecision false
       "CERBERUS: Sensitive data handling requires proper security safeguards"
       true HIGH None) = None /\
  reason
    (mkDecision false
       "CERBERUS: Sensitive data handling requires proper security safeguards"
       true HIGH None) <> "".
Proof.
  apply (returned_decision_shape "export records" (Some scenario_3) None Triumvirate_new
           (snd (evaluate_action "export records" (Some scenario_3) None Triumvirate_new))).
  reflexivity.
Defined.

(* ================================================================== *)
(** ** The two ways in from a mapping *)
(* ================================================================== *)

Lemma legacy_keys_are_fields (k : string) : k ∈ legacy_keys -> k ∈ field_names.
Proof.
  unfold legacy_keys, field_names. intros H.
  repeat (apply elem_of_cons in H as [-> | H]; [repeat constructor |]).
  apply elem_of_nil in H. contradiction.
Qed.

(** X19: A mapping that holds only keys the legacy branch reads is judged the
    same on both ways in: [from_dict] accepts it, the context it builds
    states the same facts as the one the legacy branch builds, and
    [evaluate_action] gives the same result for the mapping passed as
    [legacy_context] and for the context built by [from_dict]. *)
Theorem legacy_agrees_with_from_dict (action : string) (m : gmap string PyVal)
    (self1 self2 : Triumvirate) :
  (forall k, is_Some (m !! k) -> k ∈ legacy_keys) ->
  exists c,
    GovernanceContext_from_dict m = Ok c /\
    same_facts c (resolve_context action None (Some m)) /\
    fst (evaluate_action action (Some c) None self1) =
    fst (evaluate_action action None (Some m) self2).
Proof.
  intros Hkeys.
  assert (forall k, k ∉ legacy_keys -> m !! k = None) as Hnone.
  { intros k Hk. destruct (m !! k) eqn:E; [| reflexivity].
    exfalso. apply Hk, Hkeys. eauto. }
  assert (forall k, k ∉ legacy_keys -> forall d, dict_get m k d = d) as Hdef
    by (intros k Hk d; unfold dict_get; rewrite (Hnone k Hk); reflexivity).
  assert (forall k : string, In k unread_keys \/ k = "__class__" -> k ∉ legacy_keys)
    as Hout.
  { intros k Hk Hin. unfold legacy_keys in Hin.
    repeat (apply elem_of_cons in Hin as [-> | Hin];
            [cbn in Hk; intuition discriminate |]).
    apply elem_of_nil in Hin. exact Hin. }
  unfold GovernanceContext_from_dict, GovernanceContext_new.
  rewrite delete_id by (apply Hnone, Hout; right; reflexivity).
  rewrite (proj2 (keywords_accepted m)).
  2:{ intros k Hk. apply legacy_keys_are_fields, Hkeys, Hk. }
  eexists. split; [reflexivity |].
  assert (same_facts
            {| action_type := dict_get m "action_type" (PyStr "general");
               description := dict_get m "description" (PyStr "");
               is_abusive := dict_get m "is_abusive" (PyBool false);
               high_risk := dict_get m "high_risk" (PyBool false);
               irreversible := dict_get m "irreversible" (PyBool false);
               sensitive_data := dict_get m "sensitive_data" (PyBool false);
               fully_clarified := dict_get m "fully_clarified" (PyBool true);
               proper_safeguards := dict_get m "proper_safeguards" (PyBool true);
               user_consent := dict_get m "user_consent" (PyBool true);
               contradicts_prior_commitment :=
                 dict_get m "contradicts_prior_commitment" (PyBool false);
               violates_user_preference :=
                 dict_get m "violates_user_preference" (PyBool false);
               affects_identity := dict_get m "affects_identity" (PyBool false);
               affects_memory := dict_get m "affects_memory" (PyBool false);
               affects_relationships := dict_get m "affects_relationships" (PyBool false);
               user_id := dict_get m "user_id" PyNone;
               relationship_health :=
                 dict_get m "relationship_health" (PyFloat 0.7%float) |}
            (resolve_context action None (Some m))) as Hsame.
  { rewrite resolve_context_legacy. unfold same_facts, context_of_legacy.
    cbn [is_abusive high_risk irreversible sensitive_data fully_clarified
         proper_safeguards user_consent contradicts_prior_commitment
         violates_user_preference affects_identity affects_memory
         affects_relationships relationship_health].
    rewrite (Hdef "affects_identity"), (Hdef "affects_memory"),
      (Hdef "affects_relationships"), (Hdef "relationship_health")
      by (apply Hout; left; cbn; tauto).
    repeat split; reflexivity. }
  split; [exact Hsame |].
  rewrite (facts_decide_result action action _ _ None None self1 self2 Hsame).
  unfold evaluate_action, evaluate_action_with. reflexivity.
Qed.

(** The theorem at a mapping with a risk and no clarification. *)
Lemma legacy_agrees_with_from_dict_witness :
  exists c,
    GovernanceContext_from_dict
      (<["high_risk" := PyBool true]> {[ "fully_clarified" := PyBool false ]}) = Ok c /\
    fst (evaluate_action "migrate" (Some c) None Triumvirate_new) =
    fst (evaluate_action "migrate" None
           (Some (<["high_risk" := PyBool true]> {[ "fully_clarified" := PyBool false ]}))
           Triumvirate_new).
Proof.
  destruct (legacy_agrees_with_from_dict "migrate"
              (<["high_risk" := PyBool true]> {[ "fully_clarified" := PyBool false ]})
              Triumvirate_new Triumvirate_new) as (c & Hc & _ & Heq).
  - intros k [v Hk].
    apply lookup_insert_Some in Hk as [[<- _] | [_ Hk]];
      [unfold legacy_keys; set_solver |].
    apply lookup_singleton_Some in Hk as [<- _]. unfold legacy_keys. set_solver.
  - exists c. split; [exact Hc | exact Heq].
Defined.
